(** * tree.py: a shallow embedding of the directory-tree printer

    The script prints the structure of a directory as a tree.  Its
    functions are [main], [directory_sanitizer], [print_tree] and
    [print_directory]; they read the file system through [os.listdir],
    [os.path.isdir] and [os.getcwd] and write lines with [print].

    The embedding follows the script function by function.  The operating
    system is a record of oracles (one snapshot of the file system, fixed
    for the duration of a run); every call to it and every printed line is
    recorded, in order, in a trace of events; an exception ends the
    computation and keeps the trace produced so far.  Strings are
    sequences of bytes: the box-drawing characters of the script stand
    for their UTF-8 encodings, and paths are joined as [posixpath]
    does. *)

From Stdlib Require Import String Ascii List ZArith Lia Bool.
Import ListNotations.

Local Open Scope string_scope.
Local Open Scope Z_scope.

(** ** Python built-ins and [posixpath] *)

Module Py.

(** [s.startswith(p)]. *)
Definition startswith (s p : string) : bool := String.prefix p s.

(** [s.endswith(p)]. *)
Definition endswith (s p : string) : bool :=
  let ls := String.length s in
  let lp := String.length p in
  (lp <=? ls)%nat && String.eqb (substring (ls - lp) lp s) p.

(** [s.rfind(c)] for a one-character [c]: the highest index at which
    [c] occurs in [s], or [-1].  [i] is the index of the head of [s]. *)
Fixpoint rfind_from (i : Z) (s : string) (c : ascii) : Z :=
  match s with
  | EmptyString => -1
  | String x rest =>
      let r := rfind_from (i + 1) rest c in
      if 0 <=? r then r else if Ascii.eqb x c then i else -1
  end.

Definition rfind (s : string) (c : ascii) : Z := rfind_from 0 s c.

(** The slice [s[i:]] for [0 <= i]. *)
Definition slice_from (s : string) (i : Z) : string :=
  substring (Z.to_nat i) (String.length s - Z.to_nat i) s.

(** [posixpath.basename(p)]: [i = p.rfind('/') + 1; return p[i:]]. *)
Definition basename (p : string) : string :=
  let i := rfind p "/"%char + 1 in
  slice_from p i.

(** [posixpath.join(a, b)] with one component [b]: an absolute [b]
    replaces [a]; an empty [a] or one that ends with the separator takes
    [b] as it is; otherwise the separator is put between them. *)
Definition join (a b : string) : string :=
  if startswith b "/" then b
  else if String.eqb a "" || endswith a "/" then a ++ b
  else a ++ "/" ++ b.

End Py.

(** ** Exceptions, the operating system, and traced computations *)

(** The exceptions the script can meet.  [FileNotFoundError] and
    [PermissionError] are subclasses of [OSError] in Python; the
    constructor [OSError] stands for every other member of that class
    ([NotADirectoryError], ...).  The string is [str(e)]. *)
Inductive exception : Type :=
| FileNotFoundError (msg : string)
| PermissionError (msg : string)
| OSError (msg : string)
| IndexError (msg : string).

(** One snapshot of the operating system as the script sees it.
    [os.listdir] returns the names in a directory, in the order the file
    system yields them, or raises; [os.path.isdir] answers for every path
    (it reports [False] where the path cannot be examined, and does not
    raise); [os.getcwd] is the working directory of the process. *)
Record OS : Type := mkOS {
  listdir : string -> exception + list string;
  isdir : string -> bool;
  getcwd : string
}.

(** What a run does, in order. *)
Inductive event : Type :=
| Listdir (path : string)
| Isdir (path : string)
| Getcwd
| Print (line : string).

(** How a computation ends: with a value, with an exception, or (for the
    fuel-indexed recursion below) because its fuel ran out. *)
Inductive result (A : Type) : Type :=
| Return (a : A)
| Raise (e : exception)
| OutOfFuel.

Arguments Return {A} a.
Arguments Raise {A} e.
Arguments OutOfFuel {A}.

(** A computation: the events it produced and how it ended. *)
Definition IO (A : Type) : Type := (list event * result A)%type.

Definition ret {A} (a : A) : IO A := ([], Return a).

Definition raise {A} (e : exception) : IO A := ([], Raise e).

Definition bind {A B} (m : IO A) (k : A -> IO B) : IO B :=
  match m with
  | (t, Return a) => let (t', r) := k a in ((t ++ t')%list, r)
  | (t, Raise e) => (t, Raise e)
  | (t, OutOfFuel) => (t, OutOfFuel)
  end.

Notation "x <- m ;; k" := (bind m (fun x => k))
  (at level 61, m at next level, right associativity).
Notation "m ;; k" := (bind m (fun _ => k))
  (at level 61, right associativity).

(** [try: body  except ... as e: handler e]. *)
Definition try_except {A} (body : IO A) (handler : exception -> IO A) : IO A :=
  match body with
  | (t, Raise e) => let (t', r) := handler e in ((t ++ t')%list, r)
  | other => other
  end.

(** The lines written to standard output, in order. *)
Fixpoint stdout (t : list event) : list string :=
  match t with
  | [] => []
  | Print line :: t' => line :: stdout t'
  | _ :: t' => stdout t'
  end.

(** The directories listed, in order. *)
Fixpoint listings (t : list event) : list string :=
  match t with
  | [] => []
  | Listdir path :: t' => path :: listings t'
  | _ :: t' => listings t'
  end.

Section Script.

Variable os : OS.

(** [print] and [os.getcwd] are taken to succeed: a write that fails (an
    encoding error, a closed stream) and a working directory that no
    longer exists are outside the model.  What is proved is about the
    lines written, and about runs that end normally or at a listing that
    fails. *)
Definition print (line : string) : IO unit := ([Print line], Return tt).

Definition os_listdir (path : string) : IO (list string) :=
  ([Listdir path],
   match listdir os path with
   | inl e => Raise e
   | inr names => Return names
   end).

Definition os_path_isdir (path : string) : IO bool :=
  ([Isdir path], Return (isdir os path)).

Definition os_getcwd : IO string := ([Getcwd], Return (getcwd os)).

(** [for index, item in enumerate(items): body index item], with
    [index] the number the enumeration has reached. *)
Fixpoint for_enumerate {A} (body : Z -> A -> IO unit)
         (index : Z) (items : list A) : IO unit :=
  match items with
  | [] => ret tt
  | item :: rest => body index item ;; for_enumerate body (index + 1) rest
  end.

(** The body of the loop of [print_directory]; [recurse] is the
    recursive call with the arguments that change. *)
Definition print_entry (recurse : string -> string -> IO unit)
           (directory prefix : string) (count : Z)
           (index : Z) (item : string) : IO unit :=
  let path := Py.join directory item in
  let is_last := index =? count - 1 in
  d <- os_path_isdir path ;;
  print (prefix ++
         (if is_last then "└── " else "├── ") ++
         item ++
         (if d then "/" else "")) ;;
  d' <- os_path_isdir path ;;
  if d' then recurse path (prefix ++ (if is_last then "    " else "│   "))
  else ret tt.

(** The items a call lists: all of them, or those that are not dot
    files. *)
Definition visible (include_dotfiles : bool) (items : list string)
  : list string :=
  if negb include_dotfiles
  then filter (fun item => negb (Py.startswith item ".")) items
  else items.

(** [print_directory].  The recursion of the script is bounded by its
    depth check; [fuel] makes that bound structural. *)
Fixpoint print_directory_fuel (fuel : nat)
         (directory prefix : string) (include_dotfiles : bool)
         (max_depth current_depth : Z) : IO unit :=
  if current_depth >? max_depth then ret tt
  else
    match fuel with
    | O => ([], OutOfFuel)
    | S fuel' =>
        items <- os_listdir directory ;;
        let items := visible include_dotfiles items in
        let count := Z.of_nat (List.length items) in
        for_enumerate
          (print_entry
             (fun path prefix' =>
                print_directory_fuel fuel' path prefix' include_dotfiles
                                     max_depth (current_depth + 1))
             directory prefix count)
          0 items
    end.

(** The number of nested calls that can pass the depth check. *)
Definition depth_budget (max_depth current_depth : Z) : nat :=
  Z.to_nat (max_depth + 1 - current_depth).

Definition print_directory (directory prefix : string)
           (include_dotfiles : bool) (max_depth current_depth : Z)
  : IO unit :=
  print_directory_fuel (depth_budget max_depth current_depth)
                       directory prefix include_dotfiles
                       max_depth current_depth.

(** [print_tree]: the header, then the body from depth 0. *)
Definition print_tree (directory prefix : string)
           (include_dotfiles : bool) (max_depth : Z) : IO unit :=
  cwd <- os_getcwd ;;
  print (Py.basename cwd ++ "/") ;;
  print_directory directory prefix include_dotfiles max_depth 0.

(** [directory_sanitizer]. *)
Definition directory_sanitizer (path : string) : IO bool :=
  try_except
    (d <- os_path_isdir path ;;
     if d then ret true
     else
       print ("error: the directory '" ++ path ++ "' does not exist.") ;;
       ret false)
    (fun e =>
       match e with
       | FileNotFoundError _ =>
           print ("error: the directory '" ++ path ++ "' does not exist.") ;;
           ret false
       | PermissionError _ =>
           print ("error: you do not have the necessary permissions to access '"
                  ++ path ++ "'.") ;;
           ret false
       | OSError msg =>
           print ("error checking directory:" ++ String "010" msg) ;;
           ret false
       | other => raise other  (* not an [OSError]: not caught *)
       end).

(** [l[i]] on a Python list: a negative index counts from the end. *)
Definition getitem (l : list string) (i : Z) : IO string :=
  let n := Z.of_nat (List.length l) in
  let j := if i <? 0 then i + n else i in
  if (0 <=? j) && (j <? n)
  then ret (nth (Z.to_nat j) l "")
  else raise (IndexError "list index out of range").

(** [x in ["-a", "--all"]]. *)
Definition is_all_flag (x : string) : bool :=
  String.eqb x "-a" || String.eqb x "--all".

(** [main], on the value of [sys.argv]. *)
Definition main (argv : list string) : IO unit :=
  let args_amount := Z.of_nat (List.length argv) in
  last_arg <- getitem argv (args_amount - 1) ;;
  let is_all := is_all_flag last_arg in
  if args_amount =? 1 then
    cwd <- os_getcwd ;;
    print_tree cwd "" false 10
  else if (args_amount =? 2) && is_all then
    cwd <- os_getcwd ;;
    print_tree cwd "" is_all 10
  else if (args_amount =? 2) && negb is_all then
    path <- getitem argv 1 ;;
    ok <- directory_sanitizer path ;;
    if ok then print_tree path "" false 10 else ret tt
  else if (args_amount =? 3) && is_all then
    path <- getitem argv 1 ;;
    ok <- directory_sanitizer path ;;
    if ok then print_tree path "" is_all 10 else ret tt
  else
    print "usage: tree || tree <DIR> [-a | --all]".

(** *** Vocabulary of the specification

    A TreeLine of the specification is an indentation prefix, a
    connector, a name and a directory suffix; [entry_line] is its
    text. *)

Definition connector (is_last : bool) : string :=
  if is_last then "└── " else "├── ".

Definition indent (is_last : bool) : string :=
  if is_last then "    " else "│   ".

Definition suffix (is_dir : bool) : string :=
  if is_dir then "/" else "".

Definition entry_line (prefix : string) (is_last : bool) (name : string)
           (is_dir : bool) : string :=
  prefix ++ connector is_last ++ name ++ suffix is_dir.

(** What the body of the loop does after the line of an entry: the
    recursive call, when the entry is a directory. *)
Definition descend (recurse : string -> string -> IO unit)
           (directory prefix : string) (count index : Z) (name : string)
  : IO unit :=
  if isdir os (Py.join directory name)
  then recurse (Py.join directory name)
               (prefix ++ indent (index =? count - 1))
  else ret tt.

(** The loop of [print_directory] at depth [current_depth], from the
    index [index] on, over the items that remain. *)
Definition print_entries (include_dotfiles : bool)
           (max_depth current_depth : Z) (directory prefix : string)
           (count index : Z) (items : list string) : IO unit :=
  for_enumerate
    (print_entry
       (fun path prefix' =>
          print_directory path prefix' include_dotfiles max_depth
                          (current_depth + 1))
       directory prefix count)
    index items.

(** An indentation made of one block per flag. *)
Fixpoint indentation (flags : list bool) : string :=
  match flags with
  | [] => ""
  | flag :: rest => indent flag ++ indentation rest
  end.

Definition is_nil {A} (l : list A) : bool :=
  match l with
  | [] => true
  | _ :: _ => false
  end.

(** The lines of the entries of one directory, the last one marked. *)
Fixpoint own_lines (prefix directory : string) (items : list string)
  : list string :=
  match items with
  | [] => []
  | name :: rest =>
      entry_line prefix (is_nil rest) name
                 (isdir os (Py.join directory name))
      :: own_lines prefix directory rest
  end.

(** What a call at depth [current_depth] prints below the line of one
    of its entries: the output of the recursive call when the entry is
    a directory. *)
Definition below (include_dotfiles : bool) (max_depth current_depth : Z)
           (prefix directory : string) (is_last : bool) (name : string)
  : list string :=
  if isdir os (Py.join directory name)
  then stdout (fst (print_directory (Py.join directory name)
                                    (prefix ++ indent is_last)
                                    include_dotfiles max_depth
                                    (current_depth + 1)))
  else [].

(** What a call at depth [current_depth] prints for the entries
    [items] of its directory: the line of each entry, the last one
    marked, followed by what is printed below it. *)
Fixpoint listing_lines (include_dotfiles : bool)
         (max_depth current_depth : Z) (prefix directory : string)
         (items : list string) : list string :=
  match items with
  | [] => []
  | name :: rest =>
      (entry_line prefix (is_nil rest) name
                  (isdir os (Py.join directory name))
         :: below include_dotfiles max_depth current_depth
                  prefix directory (is_nil rest) name)
        ++ listing_lines include_dotfiles max_depth current_depth
                         prefix directory rest
  end%list.

(** The path reached from [directory] through the names of [chain]. *)
Definition path_of (directory : string) (chain : list string) : string :=
  fold_left Py.join chain directory.

(** [chain] names directories nested in one another below
    [directory], each one a listed entry of the one before. *)
Fixpoint nested (include_dotfiles : bool) (directory : string)
         (chain : list string) : Prop :=
  match chain with
  | [] => True
  | name :: rest =>
      (exists items, listdir os directory = inr items /\
                     In name (visible include_dotfiles items)) /\
      isdir os (Py.join directory name) = true /\
      nested include_dotfiles (Py.join directory name) rest
  end.

(** The first half of property P5 in the words of the specification:
    with maximum depth 1, nothing is printed below the line of a
    subdirectory of the root. *)
Definition silent_below_root_entries (root : string)
           (include_dotfiles : bool) : Prop :=
  forall items before sub after,
    listdir os root = inr items ->
    visible include_dotfiles items = (before ++ sub :: after)%list ->
    isdir os (Py.join root sub) = true ->
    below include_dotfiles 1 0 "" root (is_nil after) sub = [].

(** [fail_last m]: a listing that fails in [m] is the last thing [m]
    does, and [m] ends with its exception. *)
Definition fail_last {A} (m : IO A) : Prop :=
  forall before d after e,
    fst m = (before ++ Listdir d :: after)%list ->
    listdir os d = inl e ->
    after = [] /\ snd m = Raise e.

End Script.

(** The error kinds of the path validator of the specification, and the
    diagnostic of each. *)
Inductive ErrorKind : Type :=
| NotFound
| PermissionDenied
| OtherIOError (detail : string).

Definition diagnostic (kind : ErrorKind) (path : string) : string :=
  match kind with
  | NotFound => "error: the directory '" ++ path ++ "' does not exist."
  | PermissionDenied =>
      "error: you do not have the necessary permissions to access '"
      ++ path ++ "'."
  | OtherIOError detail =>
      "error checking directory:" ++ String "010" detail
  end.

(** *** Reading a line back

    [strip p s] removes the prefix [p] from [s]. *)
Fixpoint strip (p s : string) : option string :=
  match p with
  | EmptyString => Some s
  | String a p' =>
      match s with
      | EmptyString => None
      | String b s' => if Ascii.eqb a b then strip p' s' else None
      end
  end.

(** [parse_line l] reads the number of indentation blocks of [l], its
    connector ([true] for the one of a last entry) and the text after
    it. *)
Fixpoint parse_line_fuel (fuel : nat) (l : string)
  : option (nat * bool * string) :=
  match strip "├── " l with
  | Some shown => Some (O, false, shown)
  | None =>
      match strip "└── " l with
      | Some shown => Some (O, true, shown)
      | None =>
          match fuel with
          | O => None
          | S fuel' =>
              match
                match strip "    " l with
                | Some rest => Some rest
                | None => strip "│   " l
                end
              with
              | Some rest =>
                  match parse_line_fuel fuel' rest with
                  | Some (depth, is_last, shown) =>
                      Some (S depth, is_last, shown)
                  | None => None
                  end
              | None => None
              end
          end
      end
  end.

Definition parse_line (l : string) : option (nat * bool * string) :=
  parse_line_fuel (String.length l) l.

(** ** The scenarios of the specification *)

(** Scenario A: a root with files [a.txt], [b.txt] and a directory [sub]
    that holds [c.txt]. *)
Definition scenario_A : OS :=
  {| listdir := fun path =>
       if String.eqb path "root" then inr ["a.txt"; "b.txt"; "sub"]
       else if String.eqb path "root/sub" then inr ["c.txt"]
       else inl (FileNotFoundError path);
     isdir := fun path =>
       String.eqb path "root" || String.eqb path "root/sub";
     getcwd := "/home/user/project" |}.

(** Scenario B: the same, and the root also holds [.hidden]. *)
Definition scenario_B : OS :=
  {| listdir := fun path =>
       if String.eqb path "root" then inr ["a.txt"; ".hidden"; "b.txt"; "sub"]
       else if String.eqb path "root/sub" then inr ["c.txt"]
       else inl (FileNotFoundError path);
     isdir := fun path =>
       String.eqb path "root" || String.eqb path "root/sub";
     getcwd := "/home/user/project" |}.

(** A tree in which the directory [locked] cannot be listed. *)
Definition scenario_locked : OS :=
  {| listdir := fun path =>
       if String.eqb path "root" then inr ["a.txt"; "locked"; "z.txt"]
       else if String.eqb path "root/locked"
            then inl (PermissionError "[Errno 13] Permission denied: 'root/locked'")
       else inl (FileNotFoundError path);
     isdir := fun path =>
       String.eqb path "root" || String.eqb path "root/locked";
     getcwd := "/home/user/project" |}.


(** ** Further vocabulary *)

(** The paths given to [os.path.isdir], in order. *)
Fixpoint isdirs (t : list event) : list string :=
  match t with
  | [] => []
  | Isdir path :: t' => path :: isdirs t'
  | _ :: t' => isdirs t'
  end.

(** [sublist l1 l2]: [l1] is [l2] with some elements left out, the others
    in their order. *)
Inductive sublist {A : Type} : list A -> list A -> Prop :=
| sublist_nil : sublist [] []
| sublist_skip (x : A) (l1 l2 : list A) :
    sublist l1 l2 -> sublist l1 (x :: l2)
| sublist_keep (x : A) (l1 l2 : list A) :
    sublist l1 l2 -> sublist (x :: l1) (x :: l2).

(** The calls to [os.path.isdir] and the listings of a run, counted
    against its lines: two calls for each line, and at most [extra]
    listings more than lines. *)
Definition accounted {A} (extra : nat) (m : IO A) : Prop :=
  List.length (isdirs (fst m)) = (2 * List.length (stdout (fst m)))%nat /\
  (List.length (listings (fst m)) <=
   extra + List.length (stdout (fst m)))%nat.

(** The number of visible entries of a directory; none when it cannot
    be listed. *)
Definition listed_entries (os : OS) (include_dotfiles : bool)
           (directory : string) : nat :=
  match listdir os directory with
  | inl _ => O
  | inr items => List.length (visible include_dotfiles items)
  end.

(** The trace [t] with [p] put before every line it prints. *)
Fixpoint prepend (p : string) (t : list event) : list event :=
  match t with
  | [] => []
  | Print line :: t' => Print (p ++ line) :: prepend p t'
  | ev :: t' => ev :: prepend p t'
  end.

(** The usage line of [main]. *)
Definition usage : string := "usage: tree || tree <DIR> [-a | --all]".

(** A file system with a cycle: every directory holds one directory,
    [loop] (as a symbolic link to the directory itself does). *)
Definition scenario_cycle : OS :=
  {| listdir := fun _ => inr ["loop"];
     isdir := fun _ => true;
     getcwd := "/home/user/project" |}.

(** A root that holds only dot files, and an empty directory. *)
Definition scenario_dots : OS :=
  {| listdir := fun path =>
       if String.eqb path "root" then inr [".git"; ".env"]
       else if String.eqb path "empty" then inr []
       else inl (FileNotFoundError path);
     isdir := fun path =>
       String.eqb path "root" || String.eqb path "empty"
       || String.eqb path "root/.git";
     getcwd := "/home/user/project" |}.

(** ** Strings and lists *)

Lemma append_assoc (a b c : string) : (a ++ b) ++ c = a ++ (b ++ c).
Proof.
  induction a as [|x a IH]; simpl; [reflexivity | now rewrite IH].
Qed.

Lemma append_nil_r (a : string) : a ++ "" = a.
Proof.
  induction a as [|x a IH]; simpl; [reflexivity | now rewrite IH].
Qed.

Lemma stdout_app (t1 t2 : list event) :
  stdout (t1 ++ t2)%list = (stdout t1 ++ stdout t2)%list.
Proof.
  induction t1 as [|[p|p| |l] t1 IH]; simpl; rewrite ?IH; reflexivity.
Qed.

Lemma listings_app (t1 t2 : list event) :
  listings (t1 ++ t2)%list = (listings t1 ++ listings t2)%list.
Proof.
  induction t1 as [|[p|p| |l] t1 IH]; simpl; rewrite ?IH; reflexivity.
Qed.

Lemma in_stdout (l : string) (t : list event) :
  In l (stdout t) <-> In (Print l) t.
Proof.
  induction t as [|[p|p| |l'] t IH]; simpl.
  - tauto.
  - rewrite IH. split; [auto | intros [H|H]; [discriminate | exact H]].
  - rewrite IH. split; [auto | intros [H|H]; [discriminate | exact H]].
  - rewrite IH. split; [auto | intros [H|H]; [discriminate | exact H]].
  - rewrite IH. split; intros [H|H]; auto.
    + left. now subst.
    + left. now inversion H.
Qed.

Lemma in_listings (d : string) (t : list event) :
  In d (listings t) <-> In (Listdir d) t.
Proof.
  induction t as [|[p|p| |l'] t IH]; simpl.
  - tauto.
  - rewrite IH. split; intros [H|H]; auto.
    + left. now subst.
    + left. now inversion H.
  - rewrite IH. split; [auto | intros [H|H]; [discriminate | exact H]].
  - rewrite IH. split; [auto | intros [H|H]; [discriminate | exact H]].
  - rewrite IH. split; [auto | intros [H|H]; [discriminate | exact H]].
Qed.

(** ** Laws of the traced computations *)

Lemma bind_ret_l {A B} (a : A) (k : A -> IO B) : bind (ret a) k = k a.
Proof.
  unfold bind, ret. now destruct (k a).
Qed.

Lemma bind_assoc {A B C} (m : IO A) (k : A -> IO B) (h : B -> IO C) :
  bind (bind m k) h = bind m (fun a => bind (k a) h).
Proof.
  destruct m as [t [a|e|]]; simpl; try reflexivity.
  destruct (k a) as [t1 [b|e|]]; simpl; try reflexivity.
  destruct (h b) as [t2 r]. now rewrite app_assoc.
Qed.

(** A computation that ends with a value: what the rest adds. *)
Lemma bind_Return {A B} (t : list event) (a : A) (k : A -> IO B) :
  bind (t, Return a) k = ((t ++ fst (k a))%list, snd (k a)).
Proof.
  simpl. now destruct (k a).
Qed.

(** A computation in two parts ends with a value only if both do. *)
Lemma bind_inv_Return {A B} (m : IO A) (k : A -> IO B) (b : B) :
  snd (bind m k) = Return b ->
  exists a, snd m = Return a /\ snd (k a) = Return b /\
            fst (bind m k) = (fst m ++ fst (k a))%list.
Proof.
  destruct m as [t [a|e|]]; simpl; try discriminate.
  destruct (k a) as [t' r] eqn:E. simpl. intros ->.
  exists a. rewrite E. auto.
Qed.

Section Theory.

Variable os : OS.

Lemma for_enumerate_app {A} (body : Z -> A -> IO unit) (l1 l2 : list A)
      (index : Z) :
  for_enumerate body index (l1 ++ l2)%list =
  (for_enumerate body index l1 ;;
   for_enumerate body (index + Z.of_nat (List.length l1)) l2).
Proof.
  revert index. induction l1 as [|x l1 IH]; intros index.
  - cbn [for_enumerate app List.length]. rewrite bind_ret_l.
    now rewrite Z.add_0_r.
  - cbn [for_enumerate app List.length]. rewrite IH, bind_assoc.
    now replace (index + 1 + Z.of_nat (List.length l1))
      with (index + Z.of_nat (S (List.length l1))) by lia.
Qed.

Lemma for_enumerate_ext {A} (body1 body2 : Z -> A -> IO unit)
      (items : list A) (index : Z) :
  (forall i x, body1 i x = body2 i x) ->
  for_enumerate body1 index items = for_enumerate body2 index items.
Proof.
  intros H. revert index.
  induction items as [|x items IH]; intros index; simpl.
  - reflexivity.
  - now rewrite H, IH.
Qed.

Lemma print_entry_ext (r1 r2 : string -> string -> IO unit)
      (directory prefix : string) (count index : Z) (item : string) :
  (forall p q, r1 p q = r2 p q) ->
  print_entry os r1 directory prefix count index item =
  print_entry os r2 directory prefix count index item.
Proof.
  intros H. unfold print_entry. cbn.
  destruct (isdir os (Py.join directory item)); [|reflexivity].
  now rewrite H.
Qed.

(** *** Fuel *)

Lemma print_directory_fuel_stable (n m : nat)
      (directory prefix : string) (include_dotfiles : bool)
      (max_depth current_depth : Z) :
  (depth_budget max_depth current_depth <= n)%nat ->
  (depth_budget max_depth current_depth <= m)%nat ->
  print_directory_fuel os n directory prefix include_dotfiles
                       max_depth current_depth =
  print_directory_fuel os m directory prefix include_dotfiles
                       max_depth current_depth.
Proof.
  revert m directory prefix current_depth.
  induction n as [|n IH]; intros m directory prefix current_depth Hn Hm.
  - unfold depth_budget in *.
    destruct m; simpl;
      destruct (current_depth >? max_depth) eqn:E; try reflexivity; lia.
  - destruct m as [|m].
    + unfold depth_budget in *. simpl.
      destruct (current_depth >? max_depth) eqn:E; try reflexivity; lia.
    + cbn [print_directory_fuel].
      destruct (current_depth >? max_depth) eqn:E; [reflexivity|].
      assert (Hrec : forall p q,
                 print_directory_fuel os n p q include_dotfiles max_depth
                                      (current_depth + 1) =
                 print_directory_fuel os m p q include_dotfiles max_depth
                                      (current_depth + 1)).
      { intros p q. apply IH; unfold depth_budget in *; lia. }
      unfold os_listdir.
      destruct (listdir os directory) as [e|names]; cbn [bind];
        [reflexivity|].
      erewrite for_enumerate_ext; [reflexivity|].
      intros i x. now apply print_entry_ext.
Qed.

(** The fuel handed to [print_directory_fuel] is enough: the function
    obeys the recursive equation of the script. *)
Lemma print_directory_unfold (directory prefix : string)
      (include_dotfiles : bool) (max_depth current_depth : Z) :
  print_directory os directory prefix include_dotfiles
                  max_depth current_depth =
  if current_depth >? max_depth then ret tt
  else
    items <- os_listdir os directory ;;
    print_entries os include_dotfiles max_depth current_depth
                  directory prefix
                  (Z.of_nat (List.length (visible include_dotfiles items)))
                  0 (visible include_dotfiles items).
Proof.
  unfold print_directory at 1.
  destruct (current_depth >? max_depth) eqn:E.
  - destruct (depth_budget max_depth current_depth); simpl; now rewrite E.
  - assert (H : depth_budget max_depth current_depth =
                S (depth_budget max_depth (current_depth + 1)))
      by (unfold depth_budget; lia).
    rewrite H. cbn [print_directory_fuel]. rewrite E. reflexivity.
Qed.

Lemma print_directory_above (directory prefix : string)
      (include_dotfiles : bool) (max_depth current_depth : Z) :
  max_depth < current_depth ->
  print_directory os directory prefix include_dotfiles
                  max_depth current_depth = ([], Return tt).
Proof.
  intros H. rewrite print_directory_unfold.
  destruct (current_depth >? max_depth) eqn:E; [reflexivity | lia].
Qed.

Lemma print_directory_failed (directory prefix : string)
      (include_dotfiles : bool) (max_depth current_depth : Z)
      (e : exception) :
  current_depth <= max_depth ->
  listdir os directory = inl e ->
  print_directory os directory prefix include_dotfiles
                  max_depth current_depth = ([Listdir directory], Raise e).
Proof.
  intros H L. rewrite print_directory_unfold.
  destruct (current_depth >? max_depth) eqn:E; [lia|].
  unfold os_listdir. now rewrite L.
Qed.

Lemma print_directory_listed (directory prefix : string)
      (include_dotfiles : bool) (max_depth current_depth : Z)
      (items : list string) :
  current_depth <= max_depth ->
  listdir os directory = inr items ->
  let loop :=
    print_entries os include_dotfiles max_depth current_depth
                  directory prefix
                  (Z.of_nat (List.length (visible include_dotfiles items)))
                  0 (visible include_dotfiles items) in
  print_directory os directory prefix include_dotfiles
                  max_depth current_depth =
  (Listdir directory :: fst loop, snd loop).
Proof.
  intros H L loop. rewrite print_directory_unfold.
  destruct (current_depth >? max_depth) eqn:E; [lia|].
  unfold os_listdir. rewrite L. rewrite bind_Return. reflexivity.
Qed.

(** Induction on the depth, downwards from the maximum. *)
Lemma depth_ind (max_depth : Z) (Q : Z -> Prop) :
  (forall current_depth,
      (current_depth <= max_depth -> Q (current_depth + 1)) ->
      Q current_depth) ->
  forall current_depth, Q current_depth.
Proof.
  intros H current_depth.
  remember (Z.to_nat (max_depth + 1 - current_depth)) as n eqn:Hn.
  revert current_depth Hn.
  induction n as [|n IH]; intros current_depth Hn; apply H; intros Hle.
  - lia.
  - apply IH. lia.
Qed.

(** *** One entry, and the loop over the entries *)

Lemma print_entry_eq (recurse : string -> string -> IO unit)
      (directory prefix : string) (count index : Z) (item : string) :
  let path := Py.join directory item in
  let sub := descend os recurse directory prefix count index item in
  print_entry os recurse directory prefix count index item =
  ((Isdir path
      :: Print (entry_line prefix (index =? count - 1) item (isdir os path))
      :: Isdir path :: fst sub)%list,
   snd sub).
Proof.
  intros path sub. unfold print_entry.
  unfold os_path_isdir, print. rewrite !bind_Return. cbn [fst snd app].
  fold path.
  unfold entry_line, connector, suffix, sub, descend, indent. fold path.
  destruct (isdir os path); reflexivity.
Qed.

Lemma is_last_index {A} (before : list A) (x : A) (after : list A) :
  (0 + Z.of_nat (List.length before) =?
   Z.of_nat (List.length (before ++ x :: after)%list) - 1) = is_nil after.
Proof.
  rewrite length_app. cbn [List.length].
  destruct after as [|y after]; cbn [is_nil List.length].
  - apply Z.eqb_eq. lia.
  - apply Z.eqb_neq. lia.
Qed.

Section Loop.

Variable recurse : string -> string -> IO unit.
Variables directory prefix : string.
Variable count : Z.

Local Abbreviation loop :=
  (for_enumerate (print_entry os recurse directory prefix count)).

Local Abbreviation sub index name :=
  (descend os recurse directory prefix count index name).

Local Abbreviation line index name :=
  (entry_line prefix (index =? count - 1) name
              (isdir os (Py.join directory name))).

Lemma loop_cons (index : Z) (name : string) (rest : list string) :
  loop index (name :: rest) =
  bind (Isdir (Py.join directory name) :: Print (line index name)
          :: Isdir (Py.join directory name) :: fst (sub index name),
        snd (sub index name))
       (fun _ => loop (index + 1) rest).
Proof.
  cbn [for_enumerate]. now rewrite print_entry_eq.
Qed.

(** A loop that ends normally went through every entry. *)
Lemma loop_split (before : list string) (name : string)
      (after : list string) (index : Z) :
  snd (loop index (before ++ name :: after)%list) = Return tt ->
  let i := index + Z.of_nat (List.length before) in
  snd (loop index before) = Return tt /\
  snd (sub i name) = Return tt /\
  snd (loop (i + 1) after) = Return tt /\
  fst (loop index (before ++ name :: after)%list) =
  (fst (loop index before) ++
   Isdir (Py.join directory name) :: Print (line i name)
     :: Isdir (Py.join directory name) :: fst (sub i name) ++
   fst (loop (i + 1) after))%list.
Proof.
  intros H i. rewrite for_enumerate_app in H |- *.
  apply bind_inv_Return in H. destruct H as ([] & H1 & H2 & H3).
  rewrite H3. fold i in H2 |- *.
  rewrite loop_cons in H2 |- *.
  apply bind_inv_Return in H2. destruct H2 as ([] & H4 & H5 & H6).
  rewrite H6. cbn [fst snd] in *.
  repeat split; auto.
Qed.

(** Every event of the loop belongs to one of its entries. *)
Lemma loop_In (ev : event) (items : list string) (index : Z) :
  In ev (fst (loop index items)) ->
  exists before name after,
    items = (before ++ name :: after)%list /\
    let i := index + Z.of_nat (List.length before) in
    (ev = Isdir (Py.join directory name) \/
     ev = Print (line i name) \/
     (isdir os (Py.join directory name) = true /\
      In ev (fst (recurse (Py.join directory name)
                          (prefix ++ indent (i =? count - 1)))))).
Proof.
  revert index. induction items as [|name rest IH]; intros index H.
  - destruct H.
  - rewrite loop_cons in H.
    assert (Hhere :
              In ev (Isdir (Py.join directory name)
                       :: Print (line index name)
                       :: Isdir (Py.join directory name)
                       :: fst (sub index name)) \/
              In ev (fst (loop (index + 1) rest))).
    { destruct (sub index name) as [t [[]|e|]];
        cbn [fst snd bind] in H |- *; auto.
      destruct (loop (index + 1) rest) as [t' r]. cbn [fst] in *.
      apply in_app_or in H. exact H. }
    destruct Hhere as [Hhere | Hrest].
    + exists [], name, rest. split; [reflexivity|].
      cbn [List.length Z.of_nat]. rewrite Z.add_0_r.
      destruct Hhere as [<- | [<- | [<- | Hsub]]]; auto.
      unfold descend in Hsub.
      destruct (isdir os (Py.join directory name)); [auto | destruct Hsub].
    + apply IH in Hrest.
      destruct Hrest as (before & name' & after & -> & Hev).
      exists (name :: before), name', after. split; [reflexivity|].
      cbn [List.length].
      replace (index + Z.of_nat (S (List.length before)))
        with (index + 1 + Z.of_nat (List.length before)) by lia.
      exact Hev.
Qed.

(** The loop does not run out of fuel unless a recursive call does. *)
Lemma loop_fuel (items : list string) (index : Z) :
  (forall p q, snd (recurse p q) <> OutOfFuel) ->
  snd (loop index items) <> OutOfFuel.
Proof.
  intros Hrec. revert index.
  induction items as [|name rest IH]; intros index.
  - discriminate.
  - rewrite loop_cons. specialize (IH (index + 1)).
    assert (Hsub : snd (sub index name) <> OutOfFuel).
    { unfold descend. destruct (isdir os (Py.join directory name));
        [apply Hrec | discriminate]. }
    destruct (sub index name) as [t [[]|e|]]; cbn [fst snd bind] in *;
      try discriminate; try congruence.
    destruct (loop (index + 1) rest) as [t' r]. exact IH.
Qed.

End Loop.

(** [print_directory] returns or raises: its fuel never runs out. *)
Lemma print_directory_total (include_dotfiles : bool) (max_depth : Z)
      (current_depth : Z) (directory prefix : string) :
  snd (print_directory os directory prefix include_dotfiles
                       max_depth current_depth) <> OutOfFuel.
Proof.
  revert directory prefix.
  induction current_depth as [current_depth IH] using (depth_ind max_depth).
  intros directory prefix.
  destruct (Z_le_gt_dec current_depth max_depth) as [Hle|Hgt].
  - destruct (listdir os directory) as [e|items] eqn:L.
    + rewrite (print_directory_failed _ _ _ _ _ e) by assumption.
      discriminate.
    + rewrite (print_directory_listed _ _ _ _ _ items) by assumption.
      cbn [snd]. apply loop_fuel. intros p q. now apply IH.
  - rewrite print_directory_above by lia. discriminate.
Qed.

(** *** The shell around the traversal *)

Lemma print_tree_eq (directory prefix : string) (include_dotfiles : bool)
      (max_depth : Z) :
  let body := print_directory os directory prefix include_dotfiles
                              max_depth 0 in
  print_tree os directory prefix include_dotfiles max_depth =
  (Getcwd :: Print (Py.basename (getcwd os) ++ "/") :: fst body, snd body).
Proof.
  intros body. unfold print_tree, os_getcwd, print.
  now rewrite !bind_Return.
Qed.

Lemma directory_sanitizer_eq (path : string) :
  directory_sanitizer os path =
  if isdir os path
  then ([Isdir path], Return true)
  else ([Isdir path; Print (diagnostic NotFound path)], Return false).
Proof.
  unfold directory_sanitizer, os_path_isdir.
  rewrite bind_Return. destruct (isdir os path); reflexivity.
Qed.

(** *** A failed listing ends the computation *)

Lemma fail_last_quiet {A} (t : list event) (r : result A) :
  (forall d, ~ In (Listdir d) t) -> fail_last os (t, r).
Proof.
  intros H before d after e Ht _. exfalso. apply (H d).
  cbn [fst] in Ht. rewrite Ht. apply in_elt.
Qed.

(** A computation that is one call or one line, and no listing. *)
Ltac quiet :=
  apply fail_last_quiet;
  let d := fresh "d" in
  let H := fresh "H" in
  intros d H; repeat (destruct H as [H|H]; [discriminate H|]); destruct H.

Lemma fail_last_bind {A B} (m : IO A) (k : A -> IO B) :
  fail_last os m -> (forall a, fail_last os (k a)) -> fail_last os (bind m k).
Proof.
  intros Hm Hk before d after e Ht L.
  destruct m as [t [a|e'|]]; cbn [bind] in Ht |- *.
  - destruct (k a) as [t' r] eqn:E. cbn [fst snd] in Ht |- *.
    apply app_eq_app in Ht. destruct Ht as (l & [[-> Hl] | [-> Hl]]).
    + destruct l as [|x l].
      * cbn in Hl. rewrite app_nil_r in *.
        pose proof (Hk a [] d after e) as Hka. rewrite E in Hka.
        apply Hka; [now rewrite <- Hl | exact L].
      * inversion Hl; subst.
        destruct (Hm before d l e eq_refl L) as [_ Habs]. discriminate.
    + specialize (Hk a l d after e).
      rewrite E in Hk. cbn [fst snd] in Hk. apply Hk; [exact Hl | exact L].
  - destruct (Hm before d after e Ht L) as [-> Hr].
    cbn [snd] in Hr |- *. split; [reflexivity | congruence].
  - destruct (Hm before d after e Ht L) as [_ Hr]. discriminate.
Qed.

Lemma fail_last_listdir (path : string) : fail_last os (os_listdir os path).
Proof.
  intros before d after e Ht L. unfold os_listdir in *. cbn [fst snd] in *.
  destruct before as [|x before].
  - inversion Ht; subst. now rewrite L.
  - inversion Ht as [[Hx Hnil]]. now destruct before.
Qed.

Lemma fail_last_loop (recurse : string -> string -> IO unit)
      (directory prefix : string) (count : Z) (items : list string)
      (index : Z) :
  (forall p q, fail_last os (recurse p q)) ->
  fail_last os (for_enumerate (print_entry os recurse directory prefix count)
                           index items).
Proof.
  intros Hrec. revert index.
  induction items as [|name rest IH]; intros index.
  - quiet.
  - cbn [for_enumerate]. apply fail_last_bind; [|intros _; apply IH].
    unfold print_entry.
    apply fail_last_bind; [quiet|]. intros b.
    apply fail_last_bind; [quiet|]. intros _.
    apply fail_last_bind; [quiet|].
    intros [|]; [apply Hrec | quiet].
Qed.

Lemma fail_last_print_directory (include_dotfiles : bool)
      (max_depth current_depth : Z) (directory prefix : string) :
  fail_last os (print_directory os directory prefix include_dotfiles
                             max_depth current_depth).
Proof.
  revert directory prefix.
  induction current_depth as [current_depth IH] using (depth_ind max_depth).
  intros directory prefix. rewrite print_directory_unfold.
  destruct (current_depth >? max_depth) eqn:E.
  - quiet.
  - apply fail_last_bind; [apply fail_last_listdir|].
    intros items. apply fail_last_loop. intros p q. apply IH. lia.
Qed.

Lemma fail_last_print_tree (directory prefix : string)
      (include_dotfiles : bool) (max_depth : Z) :
  fail_last os (print_tree os directory prefix include_dotfiles max_depth).
Proof.
  unfold print_tree.
  apply fail_last_bind; [quiet|]. intros cwd.
  apply fail_last_bind; [quiet|]. intros _.
  apply fail_last_print_directory.
Qed.

Lemma fail_last_silent {A} (m : IO A) :
  listings (fst m) = [] -> fail_last os m.
Proof.
  intros H. destruct m as [t r]. apply fail_last_quiet.
  intros d Hd. apply in_listings in Hd. cbn [fst] in H.
  rewrite H in Hd. destruct Hd.
Qed.

Lemma fail_last_getitem (l : list string) (i : Z) :
  fail_last os (getitem l i).
Proof.
  apply fail_last_silent. unfold getitem.
  now destruct ((0 <=? _) && _).
Qed.

Lemma fail_last_directory_sanitizer (path : string) :
  fail_last os (directory_sanitizer os path).
Proof.
  apply fail_last_silent. rewrite directory_sanitizer_eq.
  now destruct (isdir os path).
Qed.

Lemma fail_last_main (argv : list string) : fail_last os (main os argv).
Proof.
  unfold main.
  apply fail_last_bind; [apply fail_last_getitem|]. intros last_arg.
  repeat match goal with
         | |- fail_last os (if ?c then _ else _) => destruct c
         end.
  - apply fail_last_bind; [now apply fail_last_silent|].
    intros cwd. apply fail_last_print_tree.
  - apply fail_last_bind; [now apply fail_last_silent|].
    intros cwd. apply fail_last_print_tree.
  - apply fail_last_bind; [apply fail_last_getitem|]. intros path.
    apply fail_last_bind; [apply fail_last_directory_sanitizer|].
    intros [|]; [apply fail_last_print_tree | now apply fail_last_silent].
  - apply fail_last_bind; [apply fail_last_getitem|]. intros path.
    apply fail_last_bind; [apply fail_last_directory_sanitizer|].
    intros [|]; [apply fail_last_print_tree | now apply fail_last_silent].
  - now apply fail_last_silent.
Qed.

(** *** A directory at the maximum depth

    When the recursive calls print nothing, the loop prints the lines of
    its entries and nothing else. *)
Lemma loop_flat (recurse : string -> string -> IO unit)
      (directory prefix : string) (count : Z) (items : list string)
      (index : Z) :
  (forall p q, recurse p q = ([], Return tt)) ->
  count = index + Z.of_nat (List.length items) ->
  let run := for_enumerate (print_entry os recurse directory prefix count)
                           index items in
  stdout (fst run) = own_lines os prefix directory items /\
  listings (fst run) = [] /\
  snd run = Return tt.
Proof.
  intros Hrec. revert index.
  induction items as [|name rest IH]; intros index Hcount run.
  - repeat split.
  - unfold run. rewrite loop_cons.
    assert (Hsub : descend os recurse directory prefix count index name =
                   ([], Return tt)).
    { unfold descend. destruct (isdir os (Py.join directory name));
        [apply Hrec | reflexivity]. }
    rewrite Hsub. cbn [fst snd]. rewrite bind_Return. cbn [fst snd].
    destruct (IH (index + 1)) as (H1 & H2 & H3).
    { cbn [List.length] in Hcount. lia. }
    rewrite stdout_app, listings_app, H1, H2, H3.
    cbn [stdout listings app own_lines]. repeat split.
    f_equal. f_equal.
    cbn [List.length] in Hcount.
    destruct rest as [|y rest]; cbn [is_nil List.length] in *.
    + apply Z.eqb_eq. lia.
    + apply Z.eqb_neq. lia.
Qed.

Lemma print_directory_at_max (include_dotfiles : bool) (max_depth : Z)
      (directory prefix : string) (items : list string) :
  listdir os directory = inr items ->
  let run := print_directory os directory prefix include_dotfiles
                             max_depth max_depth in
  stdout (fst run) =
    own_lines os prefix directory (visible include_dotfiles items) /\
  listings (fst run) = [directory] /\
  snd run = Return tt.
Proof.
  intros L run. unfold run.
  rewrite (print_directory_listed _ _ _ _ _ items) by (auto; lia).
  cbn [fst snd stdout listings]. unfold print_entries.
  destruct (loop_flat
              (fun path prefix' =>
                 print_directory os path prefix' include_dotfiles max_depth
                                 (max_depth + 1))
              directory prefix
              (Z.of_nat (List.length (visible include_dotfiles items)))
              (visible include_dotfiles items) 0)
    as (H1 & H2 & H3).
  - intros p q. apply print_directory_above. lia.
  - lia.
  - rewrite H1, H2, H3. auto.
Qed.

(** *** A call that ends normally *)

(** The entry at any position of the listing: its line is written with
    the connector of its position, and the recursive call for it ends
    normally too and is part of the run. *)
Lemma print_directory_entry (include_dotfiles : bool)
      (max_depth current_depth : Z) (directory prefix : string)
      (items before : list string) (name : string) (after : list string) :
  current_depth <= max_depth ->
  listdir os directory = inr items ->
  visible include_dotfiles items = (before ++ name :: after)%list ->
  let run := print_directory os directory prefix include_dotfiles
                             max_depth current_depth in
  snd run = Return tt ->
  let path := Py.join directory name in
  let sub := if isdir os path
             then print_directory os path
                                  (prefix ++ indent (is_nil after))
                                  include_dotfiles max_depth
                                  (current_depth + 1)
             else ret tt in
  snd sub = Return tt /\
  exists t1 t2,
    fst run =
    (t1 ++ Isdir path
        :: Print (entry_line prefix (is_nil after) name (isdir os path))
        :: Isdir path :: fst sub ++ t2)%list.
Proof.
  intros Hle L V run Hrun path sub. unfold run in *.
  rewrite (print_directory_listed _ _ _ _ _ items) in * by assumption.
  cbn [fst snd] in *. unfold print_entries in *. rewrite V in *.
  apply loop_split in Hrun. destruct Hrun as (H1 & H2 & H3 & H4).
  unfold descend in H2, H4.
  rewrite is_last_index in H2, H4. fold path in H2, H4. fold sub in H2, H4.
  split; [exact H2|].
  eexists (Listdir directory :: _), _. rewrite H4. reflexivity.
Qed.

Lemma loop_stdout (include_dotfiles : bool) (max_depth current_depth : Z)
      (directory prefix : string) (count : Z) (items : list string)
      (index : Z) :
  count = index + Z.of_nat (List.length items) ->
  snd (print_entries os include_dotfiles max_depth current_depth
                     directory prefix count index items) = Return tt ->
  stdout (fst (print_entries os include_dotfiles max_depth current_depth
                             directory prefix count index items)) =
  listing_lines os include_dotfiles max_depth current_depth
                prefix directory items.
Proof.
  revert index. induction items as [|name rest IH]; intros index Hc H.
  - reflexivity.
  - unfold print_entries in *. rewrite loop_cons in *.
    apply bind_inv_Return in H. destruct H as ([] & H1 & H2 & H3).
    rewrite H3. cbn [fst snd] in *. rewrite stdout_app.
    cbn [List.length] in Hc.
    rewrite IH by (auto; lia).
    assert (Hl : (index =? count - 1) = is_nil rest).
    { destruct rest; cbn [is_nil List.length] in *;
        [apply Z.eqb_eq | apply Z.eqb_neq]; lia. }
    unfold descend. rewrite Hl. cbn [stdout listing_lines]. unfold below.
    destruct (isdir os (Py.join directory name)); reflexivity.
Qed.

Lemma print_directory_stdout (include_dotfiles : bool)
      (max_depth current_depth : Z) (directory prefix : string)
      (items : list string) :
  current_depth <= max_depth ->
  listdir os directory = inr items ->
  let run := print_directory os directory prefix include_dotfiles
                             max_depth current_depth in
  snd run = Return tt ->
  stdout (fst run) =
  listing_lines os include_dotfiles max_depth current_depth
                prefix directory (visible include_dotfiles items).
Proof.
  intros Hle L run Hrun. unfold run in *.
  rewrite (print_directory_listed _ _ _ _ _ items) in * by assumption.
  cbn [fst snd stdout] in *. apply loop_stdout; [lia | exact Hrun].
Qed.

Lemma listing_lines_last (include_dotfiles : bool)
      (max_depth current_depth : Z) (prefix directory : string)
      (init : list string) (last_name : string) :
  listing_lines os include_dotfiles max_depth current_depth
                prefix directory (init ++ [last_name])%list =
  (flat_map
     (fun name =>
        entry_line prefix false name (isdir os (Py.join directory name))
          :: below os include_dotfiles max_depth current_depth
                   prefix directory false name)
     init
   ++ entry_line prefix true last_name
                 (isdir os (Py.join directory last_name))
   :: below os include_dotfiles max_depth current_depth
            prefix directory true last_name)%list.
Proof.
  induction init as [|name init IH].
  - cbn [app listing_lines flat_map is_nil]. now rewrite app_nil_r.
  - cbn [app listing_lines flat_map]. rewrite IH.
    assert (Hl : is_nil (init ++ [last_name])%list = false)
      by now destruct init.
    rewrite Hl. now rewrite <- app_assoc.
Qed.

(** *** Where a line comes from

    Every line of a run is the line of an entry of a directory reached
    from the directory of the call through a chain of listed
    directories; its prefix is the prefix of the call and one block for
    each directory of the chain. *)
Lemma line_origin (include_dotfiles : bool) (max_depth : Z)
      (current_depth : Z) (directory prefix l : string) :
  In (Print l) (fst (print_directory os directory prefix include_dotfiles
                                     max_depth current_depth)) ->
  exists chain flags items before name after,
    nested os include_dotfiles directory chain /\
    List.length flags = List.length chain /\
    current_depth + Z.of_nat (List.length chain) <= max_depth /\
    listdir os (path_of directory chain) = inr items /\
    visible include_dotfiles items = (before ++ name :: after)%list /\
    l = entry_line (prefix ++ indentation flags) (is_nil after) name
                   (isdir os (Py.join (path_of directory chain) name)).
Proof.
  revert directory prefix.
  induction current_depth as [current_depth IH] using (depth_ind max_depth).
  intros directory prefix H.
  destruct (Z_le_gt_dec current_depth max_depth) as [Hle|Hgt];
    [|rewrite print_directory_above in H by lia; destruct H].
  destruct (listdir os directory) as [e|items] eqn:L.
  { rewrite (print_directory_failed _ _ _ _ _ e) in H by assumption.
    destruct H as [H|[]]. discriminate. }
  rewrite (print_directory_listed _ _ _ _ _ items) in H by assumption.
  destruct H as [H|H]; [discriminate|]. unfold print_entries in H.
  apply loop_In in H. destruct H as (before & name & after & V & H).
  cbv zeta in H. rewrite V, is_last_index in H.
  destruct H as [H | [H | [Hdir H]]]; [discriminate | |].
  - inversion H; subst l.
    exists [], [], items, before, name, after.
    cbn [nested List.length Z.of_nat path_of fold_left indentation].
    rewrite append_nil_r. repeat split; auto. lia.
  - apply IH in H; [|exact Hle].
    destruct H as (chain & flags & items' & before' & name' & after' &
                   Hn & Hlen & Hd & L' & V' & ->).
    exists (name :: chain), (is_nil after :: flags),
      items', before', name', after'.
    cbn [nested List.length path_of fold_left indentation].
    rewrite <- append_assoc. repeat split; auto; try lia.
    exists items. split; [exact L|]. rewrite V. apply in_elt.
Qed.

(** Every directory that a run lists is reached in the same way. *)
Lemma listing_origin (include_dotfiles : bool) (max_depth : Z)
      (current_depth : Z) (directory prefix d : string) :
  In (Listdir d) (fst (print_directory os directory prefix include_dotfiles
                                       max_depth current_depth)) ->
  exists chain,
    nested os include_dotfiles directory chain /\
    current_depth + Z.of_nat (List.length chain) <= max_depth /\
    d = path_of directory chain.
Proof.
  revert directory prefix.
  induction current_depth as [current_depth IH] using (depth_ind max_depth).
  intros directory prefix H.
  destruct (Z_le_gt_dec current_depth max_depth) as [Hle|Hgt];
    [|rewrite print_directory_above in H by lia; destruct H].
  assert (Hroot : exists chain,
             nested os include_dotfiles directory chain /\
             current_depth + Z.of_nat (List.length chain) <= max_depth /\
             directory = path_of directory chain).
  { exists []. cbn. repeat split; auto. lia. }
  destruct (listdir os directory) as [e|items] eqn:L.
  { rewrite (print_directory_failed _ _ _ _ _ e) in H by assumption.
    destruct H as [H|[]]. now inversion H; subst d. }
  rewrite (print_directory_listed _ _ _ _ _ items) in H by assumption.
  destruct H as [H|H]; [now inversion H; subst d|]. unfold print_entries in H.
  apply loop_In in H. destruct H as (before & name & after & V & H).
  cbv zeta in H.
  destruct H as [H | [H | [Hdir H]]]; [discriminate | discriminate |].
  apply IH in H; [|exact Hle].
  destruct H as (chain & Hn & Hd & ->).
  exists (name :: chain). cbn [nested List.length path_of fold_left].
  repeat split; auto; try lia.
  exists items. split; [exact L|]. rewrite V. apply in_elt.
Qed.

(** In a run that ends normally, every entry of every directory reached
    within the depth bound has its line. *)
Lemma line_complete (include_dotfiles : bool) (max_depth : Z)
      (chain : list string) (current_depth : Z) (directory prefix : string)
      (items before : list string) (name : string) (after : list string) :
  nested os include_dotfiles directory chain ->
  current_depth + Z.of_nat (List.length chain) <= max_depth ->
  snd (print_directory os directory prefix include_dotfiles
                       max_depth current_depth) = Return tt ->
  listdir os (path_of directory chain) = inr items ->
  visible include_dotfiles items = (before ++ name :: after)%list ->
  exists flags,
    List.length flags = List.length chain /\
    In (Print (entry_line (prefix ++ indentation flags) (is_nil after) name
                          (isdir os (Py.join (path_of directory chain)
                                             name))))
       (fst (print_directory os directory prefix include_dotfiles
                             max_depth current_depth)).
Proof.
  revert current_depth directory prefix.
  induction chain as [|step chain IH];
    intros current_depth directory prefix Hn Hd Hrun L V.
  - cbn [path_of fold_left List.length Z.of_nat] in *.
    destruct (print_directory_entry include_dotfiles max_depth current_depth
                directory prefix items before name after
                ltac:(lia) L V Hrun) as (_ & t1 & t2 & Ht).
    exists []. split; [reflexivity|]. cbn [indentation].
    rewrite append_nil_r, Ht. apply in_or_app. right. right. now left.
  - cbn [nested path_of fold_left List.length] in *.
    destruct Hn as ((items0 & L0 & Hin) & Hdir & Hn).
    apply in_split in Hin. destruct Hin as (before0 & after0 & V0).
    destruct (print_directory_entry include_dotfiles max_depth current_depth
                directory prefix items0 before0 step after0
                ltac:(lia) L0 V0 Hrun) as (Hsub & t1 & t2 & Ht).
    rewrite Hdir in Hsub, Ht.
    destruct (IH (current_depth + 1) (Py.join directory step)
                 (prefix ++ indent (is_nil after0)) Hn ltac:(lia)
                 Hsub L V) as (flags & Hlen & Hin).
    exists (is_nil after0 :: flags). split; [cbn; lia|].
    cbn [indentation]. rewrite <- append_assoc, Ht.
    apply in_or_app. right. right. right. right.
    apply in_or_app. now left.
Qed.

(** *** Reading a line back *)

Lemma strip_connector (is_last : bool) (s : string) :
  strip "├── " (connector is_last ++ s) =
    (if is_last then None else Some s) /\
  strip "└── " (connector is_last ++ s) =
    (if is_last then Some s else None).
Proof.
  destruct is_last; split; reflexivity.
Qed.

Lemma strip_indent (flag : bool) (s : string) :
  strip "├── " (indent flag ++ s) = None /\
  strip "└── " (indent flag ++ s) = None /\
  match strip "    " (indent flag ++ s) with
  | Some rest => Some rest
  | None => strip "│   " (indent flag ++ s)
  end = Some s.
Proof.
  destruct flag; repeat split; reflexivity.
Qed.

Lemma parse_line_fuel_entry (flags : list bool) (fuel : nat)
      (is_last : bool) (shown : string) :
  (List.length flags <= fuel)%nat ->
  parse_line_fuel fuel (indentation flags ++ connector is_last ++ shown) =
  Some (List.length flags, is_last, shown).
Proof.
  revert fuel. induction flags as [|flag flags IH]; intros fuel Hfuel.
  - cbn [indentation append List.length].
    destruct (strip_connector is_last shown) as [H1 H2].
    destruct fuel; cbn [parse_line_fuel]; rewrite H1;
      destruct is_last; try reflexivity; now rewrite H2.
  - destruct fuel as [|fuel]; [cbn in Hfuel; lia|].
    cbn [indentation List.length]. rewrite append_assoc.
    destruct (strip_indent flag
                (indentation flags ++ connector is_last ++ shown))
      as (H1 & H2 & H3).
    cbn [parse_line_fuel]. rewrite H1, H2, H3.
    rewrite IH by (cbn in Hfuel; lia). reflexivity.
Qed.

Lemma length_append (a b : string) :
  String.length (a ++ b) = (String.length a + String.length b)%nat.
Proof.
  induction a as [|x a IH]; cbn; [reflexivity | now rewrite IH].
Qed.

Lemma length_indentation (flags : list bool) :
  (List.length flags <= String.length (indentation flags))%nat.
Proof.
  induction flags as [|flag flags IH]; cbn [indentation List.length].
  - apply le_n.
  - rewrite length_append. destruct flag; cbn; lia.
Qed.

(** The line of an entry reads back as its depth, its connector, and its
    name with the suffix. *)
Lemma parse_entry_line (flags : list bool) (is_last : bool)
      (name : string) (is_dir : bool) :
  parse_line (entry_line (indentation flags) is_last name is_dir) =
  Some (List.length flags, is_last, name ++ suffix is_dir).
Proof.
  unfold parse_line, entry_line. apply parse_line_fuel_entry.
  rewrite length_append. pose proof (length_indentation flags). lia.
Qed.

(** *** Dot files *)

Lemma startswith_dot_app (name rest : string) :
  name <> "" ->
  Py.startswith (name ++ rest) "." = Py.startswith name ".".
Proof.
  destruct name as [|c name]; [congruence|]. intros _.
  unfold Py.startswith. cbn [String.prefix append].
  destruct (ascii_dec "." c); [|reflexivity].
  now destruct (name ++ rest), name.
Qed.

Lemma shown_not_dot (name : string) (is_dir : bool) :
  Py.startswith name "." = false ->
  Py.startswith (name ++ suffix is_dir) "." = false.
Proof.
  intros H. destruct name as [|c name].
  - now destruct is_dir.
  - rewrite startswith_dot_app; [exact H | discriminate].
Qed.

Lemma visible_not_dot (items : list string) (name : string) :
  In name (visible false items) -> Py.startswith name "." = false.
Proof.
  unfold visible. cbn [negb]. intros H. apply filter_In in H.
  destruct H as [_ H]. now apply negb_true_iff in H.
Qed.

Lemma nested_not_dot (directory : string) (chain : list string) :
  nested os false directory chain ->
  Forall (fun name => Py.startswith name "." = false) chain.
Proof.
  revert directory. induction chain as [|name chain IH]; intros directory H.
  - constructor.
  - cbn [nested] in H. destruct H as ((items & _ & Hin) & _ & H).
    constructor; [now apply visible_not_dot in Hin | now apply IH in H].
Qed.

End Theory.

(** ** The claims *)

(** C1, as the specification words it, fails: with maximum depth 1 on
    scenario A, the line of [c.txt] is printed below the line of [sub],
    a direct child of the root. *)
Lemma C1_children_silent_counterexample :
  ~ silent_below_root_entries scenario_A "root" false.
Proof.
  intros H.
  specialize (H ["a.txt"; "b.txt"; "sub"] ["a.txt"; "b.txt"] "sub" []
                eq_refl eq_refl eq_refl).
  vm_compute in H. discriminate H.
Qed.

(** C1, amended.  With maximum depth 1, a subdirectory that is a direct
    child of the root is listed with its own entry line, and the line is
    followed by one line for each of its visible entries; the calls that
    print nothing are those entered at depth 2, for the directories one
    level further down. *)
Theorem C1_depth_one (os : OS) (root : string) (include_dotfiles : bool)
        (items before : list string) (sub : string) (after : list string)
        (sub_items : list string) :
  listdir os root = inr items ->
  visible include_dotfiles items = (before ++ sub :: after)%list ->
  isdir os (Py.join root sub) = true ->
  listdir os (Py.join root sub) = inr sub_items ->
  snd (print_tree os root "" include_dotfiles 1) = Return tt ->
  (exists l1 l2,
      stdout (fst (print_tree os root "" include_dotfiles 1)) =
      (l1 ++ ((if is_nil after then "└── " else "├── ") ++ sub ++ "/")%string
          :: own_lines os (if is_nil after then "    " else "│   ")
                       (Py.join root sub)
                       (visible include_dotfiles sub_items)
          ++ l2)%list) /\
  (forall directory prefix,
      print_directory os directory prefix include_dotfiles 1 2 =
      ([], Return tt)).
Proof.
  intros L V Hdir Lsub Hrun. split.
  - rewrite print_tree_eq in Hrun |- *. cbn [fst snd] in Hrun |- *.
    destruct (print_directory_entry os include_dotfiles 1 0 root ""
                items before sub after ltac:(lia) L V Hrun)
      as (_ & t1 & t2 & Ht).
    rewrite Hdir in Ht. rewrite Ht.
    destruct (print_directory_at_max os include_dotfiles 1
                (Py.join root sub) ("" ++ indent (is_nil after))
                sub_items Lsub) as (Hsub & _ & _).
    exists ((Py.basename (getcwd os) ++ "/")%string :: stdout t1), (stdout t2).
    cbn [stdout]. rewrite stdout_app. cbn [stdout]. rewrite stdout_app.
    change (0 + 1) with 1. rewrite Hsub.
    unfold entry_line, connector, suffix, indent. reflexivity.
  - intros directory prefix. apply print_directory_above. lia.
Qed.

Lemma C1_depth_one_witness :
  stdout (fst (print_tree scenario_A "root" "" false 1)) =
    ["project/"; "├── a.txt"; "├── b.txt"; "└── sub/"; "    └── c.txt"] /\
  exists l1 l2,
    stdout (fst (print_tree scenario_A "root" "" false 1)) =
    (l1 ++ ((if is_nil (@nil string) then "└── " else "├── ")
              ++ "sub" ++ "/")%string
        :: own_lines scenario_A (if is_nil (@nil string)
                                 then "    " else "│   ")
                     (Py.join "root" "sub")
                     (visible false ["c.txt"])
        ++ l2)%list.
Proof.
  split; [reflexivity|].
  apply (C1_depth_one scenario_A "root" false
                      ["a.txt"; "b.txt"; "sub"] ["a.txt"; "b.txt"] "sub" []
                      ["c.txt"]); reflexivity.
Defined.

(** C2. A directory entered at a depth equal to the maximum depth still
    has its contents listed, one line per visible entry, and nothing
    below them; a call entered at the maximum depth plus one does
    nothing at all, it does not even list its directory.  With maximum
    depth 0 this is the root: only its immediate children are printed. *)
Theorem C2_depth_boundary (os : OS) (directory prefix : string)
        (include_dotfiles : bool) (max_depth : Z) (items : list string) :
  listdir os directory = inr items ->
  let run := print_directory os directory prefix include_dotfiles
                             max_depth max_depth in
  stdout (fst run) =
    own_lines os prefix directory (visible include_dotfiles items) /\
  listings (fst run) = [directory] /\
  snd run = Return tt /\
  (forall directory' prefix',
      print_directory os directory' prefix' include_dotfiles
                      max_depth (max_depth + 1) = ([], Return tt)) /\
  (max_depth = 0 ->
   stdout (fst (print_tree os directory prefix include_dotfiles max_depth)) =
     (Py.basename (getcwd os) ++ "/")
       :: own_lines os prefix directory (visible include_dotfiles items)).
Proof.
  intros L run.
  destruct (print_directory_at_max os include_dotfiles max_depth
                                   directory prefix items L)
    as (H1 & H2 & H3).
  repeat split; auto.
  - intros. apply print_directory_above. lia.
  - intros ->. rewrite print_tree_eq. cbn [fst stdout]. now rewrite H1.
Qed.

(** Scenario D: maximum depth 0 on the tree of scenario A. *)
Lemma C2_depth_boundary_witness :
  listdir scenario_A "root" = inr ["a.txt"; "b.txt"; "sub"] /\
  stdout (fst (print_tree scenario_A "root" "" false 0)) =
    ["project/"; "├── a.txt"; "├── b.txt"; "└── sub/"] /\
  listings (fst (print_directory scenario_A "root" "" false 0 0)) = ["root"] /\
  snd (print_directory scenario_A "root" "" false 0 0) = Return tt /\
  print_directory scenario_A "root/sub" "    " false 0 (0 + 1) =
    ([], Return tt).
Proof.
  split; [reflexivity|].
  destruct (C2_depth_boundary scenario_A "root" "" false 0
                              ["a.txt"; "b.txt"; "sub"] eq_refl)
    as (_ & H2 & H3 & H4 & H5).
  split; [exact (H5 eq_refl)|]. split; [exact H2|]. split; [exact H3|].
  apply H4.
Defined.

(** C3. An entry whose name starts with a dot, in a directory within
    reach of the traversal, has a line in the output if and only if dot
    files are included.  When they are excluded, such entries are removed
    from the listing at every level: every line of the output is the
    line of a visible entry, whose name does not start with a dot, of a
    directory reached from the root through visible entries only; and
    they are never recursed into: every directory that is listed is
    reached from the root through a chain of entries each of which is a
    visible entry, with no dot at its start, of the directory before
    it. *)
Theorem C3_hidden_filter (os : OS) (root : string) (max_depth : Z)
        (chain items : list string) (name : string) :
  nested os true root chain ->
  Z.of_nat (List.length chain) <= max_depth ->
  listdir os (path_of root chain) = inr items ->
  In name items ->
  Py.startswith name "." = true ->
  (forall include_dotfiles,
      snd (print_tree os root "" include_dotfiles max_depth) = Return tt ->
      (exists flags is_last,
          List.length flags = List.length chain /\
          In (indentation flags ++ connector is_last ++ name ++
              suffix (isdir os (Py.join (path_of root chain) name)))
             (tl (stdout (fst (print_tree os root "" include_dotfiles
                                          max_depth)))))
      <-> include_dotfiles = true) /\
  (forall l,
      In l (tl (stdout (fst (print_tree os root "" false max_depth)))) ->
      (exists depth is_last shown,
          parse_line l = Some (depth, is_last, shown) /\
          Py.startswith shown "." = false) /\
      (exists chain' flags is_last name',
          nested os false root chain' /\
          Forall (fun step => Py.startswith step "." = false) chain' /\
          (exists items',
              listdir os (path_of root chain') = inr items' /\
              In name' (visible false items')) /\
          Py.startswith name' "." = false /\
          List.length flags = List.length chain' /\
          l = indentation flags ++ connector is_last ++ name' ++
              suffix (isdir os (Py.join (path_of root chain') name')) /\
          parse_line l =
            Some (List.length chain', is_last,
                  name' ++
                  suffix (isdir os (Py.join (path_of root chain') name'))))) /\
  (forall d,
      In d (listings (fst (print_tree os root "" false max_depth))) ->
      exists chain',
        d = path_of root chain' /\
        nested os false root chain' /\
        Z.of_nat (List.length chain') <= max_depth /\
        Forall (fun step => Py.startswith step "." = false) chain').
Proof.
  intros Hn Hd L Hin Hdot.
  assert (Hshown : forall l,
             In l (tl (stdout (fst (print_tree os root "" false
                                               max_depth)))) ->
             exists depth is_last shown,
               parse_line l = Some (depth, is_last, shown) /\
               Py.startswith shown "." = false).
  { intros l. rewrite print_tree_eq. cbn [fst stdout tl]. intros H.
    apply in_stdout, line_origin in H.
    destruct H as (chain' & flags & items' & before & name' & after &
                   _ & _ & _ & _ & V & ->).
    cbn [append]. rewrite parse_entry_line.
    do 3 eexists. split; [reflexivity|].
    apply shown_not_dot, (visible_not_dot items').
    rewrite V. apply in_elt. }
  split; [|split].
  - intros include_dotfiles Hrun. split.
    + intros (flags & is_last & _ & Hline).
      destruct include_dotfiles; [reflexivity|]. exfalso.
      apply Hshown in Hline.
      destruct Hline as (depth & is_last' & shown & Hparse & Hnot).
      change (indentation flags ++ connector is_last ++ name ++
              suffix (isdir os (Py.join (path_of root chain) name)))
        with (entry_line (indentation flags) is_last name
                (isdir os (Py.join (path_of root chain) name))) in Hparse.
      rewrite parse_entry_line in Hparse. inversion Hparse; subst.
      rewrite startswith_dot_app in Hnot by (now destruct name).
      congruence.
    + intros ->. rewrite print_tree_eq in Hrun |- *.
      cbn [fst snd stdout tl] in Hrun |- *.
      apply in_split in Hin. destruct Hin as (before & after & ->).
      destruct (line_complete os true max_depth chain 0 root ""
                  (before ++ name :: after) before name after
                  Hn ltac:(lia) Hrun L eq_refl) as (flags & Hlen & H).
      exists flags, (is_nil after). split; [exact Hlen|].
      apply in_stdout. exact H.
  - intros l Hl. split; [now apply Hshown|].
    rewrite print_tree_eq in Hl. cbn [fst stdout tl] in Hl.
    apply in_stdout, line_origin in Hl.
    destruct Hl as (chain' & flags & items' & before & name' & after &
                    Hn' & Hlen & _ & L' & V & ->).
    assert (Hvis : In name' (visible false items'))
      by (rewrite V; apply in_elt).
    exists chain', flags, (is_nil after), name'.
    cbn [append]. repeat split; auto.
    + now apply nested_not_dot in Hn'.
    + now exists items'.
    + now apply visible_not_dot in Hvis.
    + now rewrite parse_entry_line, Hlen.
  - intros d. rewrite print_tree_eq. cbn [fst listings]. intros H.
    apply in_listings, listing_origin in H.
    destruct H as (chain' & Hn' & Hbound & ->).
    exists chain'. repeat split; auto.
    now apply nested_not_dot in Hn'.
Qed.

Lemma C3_hidden_filter_witness :
  stdout (fst (print_tree scenario_B "root" "" false 10)) =
    ["project/"; "├── a.txt"; "├── b.txt"; "└── sub/"; "    └── c.txt"] /\
  stdout (fst (print_tree scenario_B "root" "" true 10)) =
    ["project/"; "├── a.txt"; "├── .hidden"; "├── b.txt"; "└── sub/";
     "    └── c.txt"] /\
  listings (fst (print_tree scenario_B "root" "" false 10)) =
    ["root"; "root/sub"] /\
  (forall include_dotfiles,
      snd (print_tree scenario_B "root" "" include_dotfiles 10) = Return tt ->
      (exists flags is_last,
          List.length flags = List.length (@nil string) /\
          In (indentation flags ++ connector is_last ++ ".hidden" ++
              suffix (isdir scenario_B
                            (Py.join (path_of "root" []) ".hidden")))
             (tl (stdout (fst (print_tree scenario_B "root" ""
                                          include_dotfiles 10)))))
      <-> include_dotfiles = true) /\
  (forall l,
      In l (tl (stdout (fst (print_tree scenario_B "root" "" false 10)))) ->
      (exists depth is_last shown,
          parse_line l = Some (depth, is_last, shown) /\
          Py.startswith shown "." = false) /\
      (exists chain' flags is_last name',
          nested scenario_B false "root" chain' /\
          Forall (fun step => Py.startswith step "." = false) chain' /\
          (exists items',
              listdir scenario_B (path_of "root" chain') = inr items' /\
              In name' (visible false items')) /\
          Py.startswith name' "." = false /\
          List.length flags = List.length chain' /\
          l = indentation flags ++ connector is_last ++ name' ++
              suffix (isdir scenario_B
                            (Py.join (path_of "root" chain') name')) /\
          parse_line l =
            Some (List.length chain', is_last,
                  name' ++
                  suffix (isdir scenario_B
                                (Py.join (path_of "root" chain') name'))))) /\
  (forall d,
      In d (listings (fst (print_tree scenario_B "root" "" false 10))) ->
      exists chain',
        d = path_of "root" chain' /\
        nested scenario_B false "root" chain' /\
        Z.of_nat (List.length chain') <= 10 /\
        Forall (fun step => Py.startswith step "." = false) chain').
Proof.
  split; [reflexivity|]. split; [reflexivity|]. split; [reflexivity|].
  apply (C3_hidden_filter scenario_B "root" 10 []
                          ["a.txt"; ".hidden"; "b.txt"; "sub"] ".hidden").
  - exact I.
  - cbn. lia.
  - reflexivity.
  - cbn. tauto.
  - reflexivity.
Defined.

(** C4. Scenario A: a root that lists [a.txt], [b.txt] and [sub], in that
    order, where [sub] is a directory that holds [c.txt]; dot files
    excluded, default depth.  The output is the header and four lines.
    The rule behind the last line holds for every call: what is printed
    below the line of an entry that is a directory is the output of the
    recursive call, whose prefix is extended by four spaces after a last
    entry and by a bar and three spaces after any other. *)
Theorem C4_scenario_A (os : OS) (root : string) :
  (listdir os root = inr ["a.txt"; "b.txt"; "sub"] ->
   listdir os (Py.join root "sub") = inr ["c.txt"] ->
   isdir os (Py.join root "a.txt") = false ->
   isdir os (Py.join root "b.txt") = false ->
   isdir os (Py.join root "sub") = true ->
   isdir os (Py.join (Py.join root "sub") "c.txt") = false ->
   stdout (fst (print_tree os root "" false 10)) =
     [Py.basename (getcwd os) ++ "/";
      "├── a.txt";
      "├── b.txt";
      "└── sub/";
      "    └── c.txt"] /\
   snd (print_tree os root "" false 10) = Return tt) /\
  (forall directory prefix include_dotfiles max_depth current_depth
          items before name after,
      current_depth <= max_depth ->
      listdir os directory = inr items ->
      visible include_dotfiles items = (before ++ name :: after)%list ->
      isdir os (Py.join directory name) = true ->
      snd (print_directory os directory prefix include_dotfiles
                           max_depth current_depth) = Return tt ->
      exists l1 l2,
        stdout (fst (print_directory os directory prefix include_dotfiles
                                     max_depth current_depth)) =
        (l1 ++ (prefix ++ (if is_nil after then "└── " else "├── ")
                       ++ name ++ "/")%string
            :: stdout (fst (print_directory
                              os (Py.join directory name)
                              (prefix ++ (if is_nil after
                                          then "    " else "│   "))
                              include_dotfiles max_depth
                              (current_depth + 1)))
            ++ l2)%list).
Proof.
  split.
  - intros Lroot Lsub Ha Hb Hsub Hc.
    assert (Hbelow :
              print_directory os (Py.join root "sub") ("" ++ indent true)
                              false 10 (0 + 1) =
              ([Listdir (Py.join root "sub");
                Isdir (Py.join (Py.join root "sub") "c.txt");
                Print "    └── c.txt";
                Isdir (Py.join (Py.join root "sub") "c.txt")],
               Return tt)).
    { rewrite (print_directory_listed os _ _ _ _ _ ["c.txt"])
        by first [lia | assumption].
      unfold print_entries.
      change (visible false ["c.txt"]) with ["c.txt"].
      cbn [for_enumerate List.length]. rewrite print_entry_eq.
      unfold descend. rewrite Hc. reflexivity. }
    rewrite print_tree_eq.
    rewrite (print_directory_listed os _ _ _ _ _ ["a.txt"; "b.txt"; "sub"])
      by first [lia | assumption].
    unfold print_entries.
    change (visible false ["a.txt"; "b.txt"; "sub"])
      with ["a.txt"; "b.txt"; "sub"].
    cbn [for_enumerate List.length]. rewrite !print_entry_eq.
    unfold descend. rewrite Ha, Hb, Hsub.
    change (0 + 1 + 1 =? Z.of_nat 3 - 1) with true.
    rewrite Hbelow. split; reflexivity.
  - intros directory prefix include_dotfiles max_depth current_depth
           items before name after Hle L V Hdir Hrun.
    destruct (print_directory_entry os include_dotfiles max_depth
                current_depth directory prefix items before name after
                Hle L V Hrun) as (_ & t1 & t2 & Ht).
    rewrite Hdir in Ht. rewrite Ht.
    exists (stdout t1), (stdout t2).
    rewrite stdout_app. cbn [stdout]. rewrite stdout_app.
    unfold entry_line, connector, suffix, indent. reflexivity.
Qed.

Lemma C4_scenario_A_witness :
  stdout (fst (print_tree scenario_A "root" "" false 10)) =
    ["project/"; "├── a.txt"; "├── b.txt"; "└── sub/"; "    └── c.txt"] /\
  snd (print_tree scenario_A "root" "" false 10) = Return tt.
Proof.
  destruct (C4_scenario_A scenario_A "root") as [H _].
  apply H; reflexivity.
Defined.

(** C5. Among the lines that a call writes for the entries of its
    directory (after the filter on dot files), the line of the last entry
    in listing order, and no other, has the connector [└── ]; every entry
    before it has [├── ].  Each line is followed by what is printed below
    its entry. *)
Theorem C5_connectors (os : OS) (directory prefix : string)
        (include_dotfiles : bool) (max_depth current_depth : Z)
        (items init : list string) (last_name : string) :
  current_depth <= max_depth ->
  listdir os directory = inr items ->
  visible include_dotfiles items = (init ++ [last_name])%list ->
  snd (print_directory os directory prefix include_dotfiles
                       max_depth current_depth) = Return tt ->
  stdout (fst (print_directory os directory prefix include_dotfiles
                               max_depth current_depth)) =
  (flat_map
     (fun name =>
        (prefix ++ "├── " ++ name ++
                suffix (isdir os (Py.join directory name)))%string
          :: below os include_dotfiles max_depth current_depth
                   prefix directory false name)
     init
   ++ (prefix ++ "└── " ++ last_name ++
              suffix (isdir os (Py.join directory last_name)))%string
   :: below os include_dotfiles max_depth current_depth
            prefix directory true last_name)%list.
Proof.
  intros Hle L V Hrun.
  rewrite (print_directory_stdout os _ _ _ _ _ items) by assumption.
  rewrite V. apply listing_lines_last.
Qed.

Lemma C5_connectors_witness :
  stdout (fst (print_directory scenario_B "root" "" false 10 0)) =
  (flat_map
     (fun name =>
        ("" ++ "├── " ++ name ++
            suffix (isdir scenario_B (Py.join "root" name)))%string
          :: below scenario_B false 10 0 "" "root" false name)
     ["a.txt"; "b.txt"]
   ++ ("" ++ "└── " ++ "sub" ++
          suffix (isdir scenario_B (Py.join "root" "sub")))%string
   :: below scenario_B false 10 0 "" "root" true "sub")%list.
Proof.
  apply (C5_connectors scenario_B "root" "" false 10 0
                       ["a.txt"; ".hidden"; "b.txt"; "sub"]
                       ["a.txt"; "b.txt"] "sub").
  - lia.
  - reflexivity.
  - reflexivity.
  - reflexivity.
Defined.

(** C6. For every root and options, the first line that [print_tree]
    writes is the base name of the working directory of the process
    followed by [/], whatever directory is traversed. *)
Theorem C6_header_is_working_directory (os : OS) (directory prefix : string)
        (include_dotfiles : bool) (max_depth : Z) :
  hd_error (stdout (fst (print_tree os directory prefix include_dotfiles
                                    max_depth))) =
  Some (Py.basename (getcwd os) ++ "/").
Proof.
  rewrite print_tree_eq. reflexivity.
Qed.

(** C7. When the root path given on the command line does not exist or
    is not a directory, [directory_sanitizer] answers [False] with the
    diagnostic of [NotFound], a single line that contains the path; [main]
    then writes nothing else, not even the header.  The check is made
    once, on the root path, before the traversal: whatever the answer,
    the run of [main] begins with that one check, and on a directory the
    rest of the run is that of [print_tree]. *)
Theorem C7_root_validation (os : OS) (prog path flag : string) :
  is_all_flag path = false ->
  is_all_flag flag = true ->
  (isdir os path = false ->
   directory_sanitizer os path =
     ([Isdir path; Print (diagnostic NotFound path)], Return false) /\
   (exists a b, diagnostic NotFound path = a ++ path ++ b) /\
   main os [prog; path] =
     ([Isdir path; Print (diagnostic NotFound path)], Return tt) /\
   main os [prog; path; flag] =
     ([Isdir path; Print (diagnostic NotFound path)], Return tt)) /\
  (isdir os path = true ->
   main os [prog; path] =
     (Isdir path :: fst (print_tree os path "" false 10),
      snd (print_tree os path "" false 10)) /\
   main os [prog; path; flag] =
     (Isdir path :: fst (print_tree os path "" true 10),
      snd (print_tree os path "" true 10))).
Proof.
  intros Hpath Hflag.
  assert (H2 : main os [prog; path] =
               (ok <- directory_sanitizer os path ;;
                if ok then print_tree os path "" false 10 else ret tt)).
  { unfold main.
    change (Z.of_nat (List.length [prog; path])) with 2.
    change (getitem [prog; path] (2 - 1)) with (@ret string path).
    rewrite bind_ret_l, Hpath.
    change (2 =? 1) with false. change (2 =? 2) with true. cbn [andb negb].
    change (getitem [prog; path] 1) with (@ret string path).
    now rewrite bind_ret_l. }
  assert (H3 : main os [prog; path; flag] =
               (ok <- directory_sanitizer os path ;;
                if ok then print_tree os path "" true 10 else ret tt)).
  { unfold main.
    change (Z.of_nat (List.length [prog; path; flag])) with 3.
    change (getitem [prog; path; flag] (3 - 1)) with (@ret string flag).
    rewrite bind_ret_l, Hflag.
    change (3 =? 1) with false. change (3 =? 2) with false.
    change (3 =? 3) with true. cbn [andb negb].
    change (getitem [prog; path; flag] 1) with (@ret string path).
    now rewrite bind_ret_l. }
  rewrite H2, H3, directory_sanitizer_eq.
  split; intros ->.
  - repeat split.
    exists "error: the directory '", "' does not exist.". reflexivity.
  - rewrite !bind_Return. split; reflexivity.
Qed.

Lemma C7_root_validation_witness :
  is_all_flag "/does/not/exist" = false /\
  is_all_flag "--all" = true /\
  isdir scenario_A "/does/not/exist" = false /\
  main scenario_A ["tree.py"; "/does/not/exist"] =
    ([Isdir "/does/not/exist";
      Print "error: the directory '/does/not/exist' does not exist."],
     Return tt) /\
  main scenario_A ["tree.py"; "/does/not/exist"; "--all"] =
    ([Isdir "/does/not/exist";
      Print "error: the directory '/does/not/exist' does not exist."],
     Return tt).
Proof.
  split; [reflexivity|]. split; [reflexivity|]. split; [reflexivity|].
  destruct (C7_root_validation scenario_A "tree.py" "/does/not/exist" "--all"
                               eq_refl eq_refl) as [H _].
  destruct (H eq_refl) as (_ & _ & H2 & H3). split; assumption.
Defined.

(** C8. If listing a directory fails during the traversal, at any depth,
    the traversal stops there: the failed listing is the last thing the
    renderer does, so no further line is written, and the exception
    leaves [print_directory], [print_tree] and [main]; no level of the
    recursion skips the directory and goes on. *)
Theorem C8_failed_listing_aborts (os : OS) (before : list event) (d : string)
        (after : list event) (e : exception) :
  listdir os d = inl e ->
  (forall directory prefix include_dotfiles max_depth current_depth,
      let run := print_directory os directory prefix include_dotfiles
                                 max_depth current_depth in
      fst run = (before ++ Listdir d :: after)%list ->
      after = [] /\ snd run = Raise e) /\
  (forall directory prefix include_dotfiles max_depth,
      let run := print_tree os directory prefix include_dotfiles max_depth in
      fst run = (before ++ Listdir d :: after)%list ->
      after = [] /\ snd run = Raise e) /\
  (forall argv,
      fst (main os argv) = (before ++ Listdir d :: after)%list ->
      after = [] /\ snd (main os argv) = Raise e).
Proof.
  intros L. repeat split.
  - eapply fail_last_print_directory; eauto.
  - eapply fail_last_print_directory; eauto.
  - eapply fail_last_print_tree; eauto.
  - eapply fail_last_print_tree; eauto.
  - eapply fail_last_main; eauto.
  - eapply fail_last_main; eauto.
Qed.

Lemma C8_failed_listing_aborts_witness :
  listdir scenario_locked "root/locked" =
    inl (PermissionError "[Errno 13] Permission denied: 'root/locked'") /\
  stdout (fst (main scenario_locked ["tree.py"; "root"])) =
    ["project/"; "├── a.txt"; "├── locked/"] /\
  snd (main scenario_locked ["tree.py"; "root"]) =
    Raise (PermissionError "[Errno 13] Permission denied: 'root/locked'").
Proof.
  split; [reflexivity|]. split; [reflexivity|].
  apply (C8_failed_listing_aborts
           scenario_locked
           [Isdir "root"; Getcwd; Print "project/"; Listdir "root";
            Isdir "root/a.txt"; Print "├── a.txt"; Isdir "root/a.txt";
            Isdir "root/locked"; Print "├── locked/"; Isdir "root/locked"]
           "root/locked" []
           (PermissionError "[Errno 13] Permission denied: 'root/locked'")
           eq_refl).
  reflexivity.
Defined.

(** C9. For every negative maximum depth, [print_tree] writes exactly one
    line, the header, lists no directory at all, and returns: the depth
    check fails at depth 0. *)
Theorem C9_negative_max_depth (os : OS) (directory prefix : string)
        (include_dotfiles : bool) (max_depth : Z) :
  max_depth < 0 ->
  let run := print_tree os directory prefix include_dotfiles max_depth in
  stdout (fst run) = [Py.basename (getcwd os) ++ "/"] /\
  listings (fst run) = [] /\
  snd run = Return tt.
Proof.
  intros H run. unfold run. rewrite print_tree_eq.
  rewrite print_directory_above by lia. repeat split.
Qed.

Lemma C9_negative_max_depth_witness :
  -1 < 0 /\
  stdout (fst (print_tree scenario_A "root" "" false (-1))) = ["project/"] /\
  listings (fst (print_tree scenario_A "root" "" false (-1))) = [] /\
  snd (print_tree scenario_A "root" "" false (-1)) = Return tt.
Proof.
  split; [lia|].
  apply (C9_negative_max_depth scenario_A "root" "" false (-1)). lia.
Defined.

(** C10. Every line below the header is the line of an entry reached
    from the root through a chain of [d] nested directories, and its
    indentation is made of exactly [d] blocks, each of them four spaces
    or a bar and three spaces.  The depth can be read back from the line,
    and the lines of the entries of the root itself have no
    indentation. *)
Theorem C10_indentation (os : OS) (root : string) (include_dotfiles : bool)
        (max_depth : Z) (l : string) :
  In l (tl (stdout (fst (print_tree os root "" include_dotfiles
                                    max_depth)))) ->
  exists chain flags is_last name,
    nested os include_dotfiles root chain /\
    (exists items,
        listdir os (path_of root chain) = inr items /\
        In name (visible include_dotfiles items)) /\
    List.length flags = List.length chain /\
    l = indentation flags ++ connector is_last ++ name ++
        suffix (isdir os (Py.join (path_of root chain) name)) /\
    parse_line l =
      Some (List.length chain, is_last,
            name ++ suffix (isdir os (Py.join (path_of root chain) name))) /\
    (chain = [] -> indentation flags = "").
Proof.
  rewrite print_tree_eq. cbn [fst stdout tl]. intros H.
  apply in_stdout, line_origin in H.
  destruct H as (chain & flags & items & before & name & after &
                 Hn & Hlen & _ & L & V & ->).
  exists chain, flags, (is_nil after), name.
  cbn [append]. repeat split; auto.
  - exists items. split; [exact L|]. rewrite V. apply in_elt.
  - now rewrite parse_entry_line, Hlen.
  - intros ->. now destruct flags.
Qed.

Lemma C10_indentation_witness :
  In "    └── c.txt"
     (tl (stdout (fst (print_tree scenario_A "root" "" false 10)))) /\
  parse_line "    └── c.txt" = Some (1%nat, true, "c.txt") /\
  exists chain flags is_last name,
    nested scenario_A false "root" chain /\
    (exists items,
        listdir scenario_A (path_of "root" chain) = inr items /\
        In name (visible false items)) /\
    List.length flags = List.length chain /\
    "    └── c.txt" =
      indentation flags ++ connector is_last ++ name ++
      suffix (isdir scenario_A (Py.join (path_of "root" chain) name)) /\
    parse_line "    └── c.txt" =
      Some (List.length chain, is_last,
            name ++ suffix (isdir scenario_A
                                  (Py.join (path_of "root" chain) name))) /\
    (chain = [] -> indentation flags = "").
Proof.
  split; [vm_compute; tauto|]. split; [reflexivity|].
  apply (C10_indentation scenario_A "root" false 10 "    └── c.txt").
  vm_compute. tauto.
Defined.

(** ** Further properties of the script *)

Section Shell.

Variable os : OS.

(** The forms of the command line, as [main] tells them apart. *)
Lemma main_one (prog : string) :
  main os [prog] =
  (cwd <- os_getcwd os ;; print_tree os cwd "" false 10).
Proof.
  unfold main.
  change (Z.of_nat (List.length [prog])) with 1.
  change (getitem [prog] (1 - 1)) with (@ret string prog).
  now rewrite bind_ret_l.
Qed.

Lemma main_flag (prog flag : string) :
  is_all_flag flag = true ->
  main os [prog; flag] =
  (cwd <- os_getcwd os ;; print_tree os cwd "" true 10).
Proof.
  intros H. unfold main.
  change (Z.of_nat (List.length [prog; flag])) with 2.
  change (getitem [prog; flag] (2 - 1)) with (@ret string flag).
  rewrite bind_ret_l, H. reflexivity.
Qed.

Lemma main_directory (prog path : string) :
  is_all_flag path = false ->
  main os [prog; path] =
  (ok <- directory_sanitizer os path ;;
   if ok then print_tree os path "" false 10 else ret tt).
Proof.
  intros H. unfold main.
  change (Z.of_nat (List.length [prog; path])) with 2.
  change (getitem [prog; path] (2 - 1)) with (@ret string path).
  rewrite bind_ret_l, H.
  change (2 =? 1) with false. change (2 =? 2) with true. cbn [andb negb].
  change (getitem [prog; path] 1) with (@ret string path).
  now rewrite bind_ret_l.
Qed.

Lemma main_directory_flag (prog path flag : string) :
  is_all_flag flag = true ->
  main os [prog; path; flag] =
  (ok <- directory_sanitizer os path ;;
   if ok then print_tree os path "" true 10 else ret tt).
Proof.
  intros H. unfold main.
  change (Z.of_nat (List.length [prog; path; flag])) with 3.
  change (getitem [prog; path; flag] (3 - 1)) with (@ret string flag).
  rewrite bind_ret_l, H.
  change (3 =? 1) with false. change (3 =? 2) with false.
  change (3 =? 3) with true. cbn [andb negb].
  change (getitem [prog; path; flag] 1) with (@ret string path).
  now rewrite bind_ret_l.
Qed.

Lemma main_many (argv : list string) :
  4 <= Z.of_nat (List.length argv) ->
  main os argv = ([Print usage], Return tt).
Proof.
  intros H. unfold main, getitem.
  set (n := Z.of_nat (List.length argv)) in *.
  rewrite (proj2 (Z.ltb_ge (n - 1) 0)) by lia.
  rewrite (proj2 (Z.leb_le 0 (n - 1))) by lia.
  rewrite (proj2 (Z.ltb_lt (n - 1) n)) by lia.
  cbn [andb]. rewrite bind_ret_l.
  rewrite (proj2 (Z.eqb_neq n 1)) by lia.
  rewrite (proj2 (Z.eqb_neq n 2)) by lia.
  rewrite (proj2 (Z.eqb_neq n 3)) by lia.
  reflexivity.
Qed.

Lemma print_directory_head (directory prefix : string)
      (include_dotfiles : bool) (max_depth current_depth : Z) :
  current_depth <= max_depth ->
  hd_error (fst (print_directory os directory prefix include_dotfiles
                                 max_depth current_depth)) =
  Some (Listdir directory).
Proof.
  intros H. destruct (listdir os directory) as [e|items] eqn:L.
  - now rewrite (print_directory_failed os _ _ _ _ _ e).
  - now rewrite (print_directory_listed os _ _ _ _ _ items).
Qed.

End Shell.

(** X1. Any command line that is not one of the four forms gets the usage
    line and nothing else: no call to the file system, no header.  That
    is three arguments of which the last is not the flag (so the flag
    before the directory is refused), and four arguments or more. *)
Theorem X1_usage (os : OS) :
  (forall prog first last,
      is_all_flag last = false ->
      main os [prog; first; last] = ([Print usage], Return tt)) /\
  (forall prog a b c rest,
      main os (prog :: a :: b :: c :: rest) = ([Print usage], Return tt)).
Proof.
  split.
  - intros prog first last H. unfold main.
    change (Z.of_nat (List.length [prog; first; last])) with 3.
    change (getitem [prog; first; last] (3 - 1)) with (@ret string last).
    rewrite bind_ret_l, H. reflexivity.
  - intros prog a b c rest. apply main_many. cbn [List.length]. lia.
Qed.

Lemma X1_usage_witness :
  is_all_flag "root" = false /\
  main scenario_A ["tree.py"; "-a"; "root"] = ([Print usage], Return tt) /\
  main scenario_A ["tree.py"; "root"; "-a"; "--all"] =
    ([Print usage], Return tt).
Proof.
  destruct (X1_usage scenario_A) as [H3 H4].
  split; [reflexivity|]. split; [apply H3; reflexivity | apply H4].
Defined.

(** X2. Without a directory argument ([tree], [tree -a], [tree --all])
    the root is the working directory: it is not checked, it is the
    first directory listed, right after the header, and the header is
    its own base name.  The flag alone decides whether dot files are
    included. *)
Theorem X2_working_directory_forms (os : OS) (prog flag : string) :
  is_all_flag flag = true ->
  let cwd := getcwd os in
  let header := Py.basename cwd ++ "/" in
  main os [prog] =
    (Getcwd :: Getcwd :: Print header
       :: fst (print_directory os cwd "" false 10 0),
     snd (print_directory os cwd "" false 10 0)) /\
  main os [prog; flag] =
    (Getcwd :: Getcwd :: Print header
       :: fst (print_directory os cwd "" true 10 0),
     snd (print_directory os cwd "" true 10 0)) /\
  forall include_dotfiles,
    hd_error (fst (print_directory os cwd "" include_dotfiles 10 0)) =
    Some (Listdir cwd).
Proof.
  intros H cwd header. split; [|split].
  - rewrite main_one. unfold os_getcwd.
    now rewrite bind_Return, print_tree_eq.
  - rewrite main_flag by assumption. unfold os_getcwd.
    now rewrite bind_Return, print_tree_eq.
  - intros include_dotfiles. apply print_directory_head. lia.
Qed.

Lemma X2_working_directory_forms_witness :
  is_all_flag "--all" = true /\
  main scenario_dots ["tree.py"] =
    ([Getcwd; Getcwd; Print "project/"; Listdir "/home/user/project"],
     Raise (FileNotFoundError "/home/user/project")) /\
  main scenario_dots ["tree.py"; "--all"] =
    ([Getcwd; Getcwd; Print "project/"; Listdir "/home/user/project"],
     Raise (FileNotFoundError "/home/user/project")).
Proof.
  split; [reflexivity|].
  destruct (X2_working_directory_forms scenario_dots "tree.py" "--all" eq_refl)
    as (H1 & H2 & _).
  split; [exact H1 | exact H2].
Defined.

(** X3. The check of the root is [os.path.isdir] and no more: a directory
    that exists but cannot be listed passes it.  [main] then prints the
    header, the listing of the root raises, and the run ends with that
    exception and no diagnostic. *)
Theorem X3_unreadable_root (os : OS) (prog path : string) (e : exception) :
  is_all_flag path = false ->
  isdir os path = true ->
  listdir os path = inl e ->
  main os [prog; path] =
    ([Isdir path; Getcwd; Print (Py.basename (getcwd os) ++ "/");
      Listdir path],
     Raise e).
Proof.
  intros Hflag Hdir L.
  rewrite main_directory by assumption.
  rewrite directory_sanitizer_eq, Hdir, bind_Return, print_tree_eq.
  now rewrite (print_directory_failed os _ _ _ _ _ e) by (auto; lia).
Qed.

Lemma X3_unreadable_root_witness :
  main scenario_locked ["tree.py"; "root/locked"] =
    ([Isdir "root/locked"; Getcwd; Print "project/"; Listdir "root/locked"],
     Raise (PermissionError "[Errno 13] Permission denied: 'root/locked'")).
Proof.
  apply (X3_unreadable_root scenario_locked "tree.py" "root/locked");
    reflexivity.
Defined.

(** X4. [directory_sanitizer] consults the file system through one call
    to [os.path.isdir] and no listing; whenever it returns, it returns
    the answer of that call, and on a directory it prints nothing.  So
    [main], given a directory argument, reaches [os.getcwd] and
    [os.listdir] only when [os.path.isdir] held of the argument. *)
Theorem X4_directory_gate (os : OS) (prog path flag : string) :
  let run := directory_sanitizer os path in
  isdirs (fst run) = [path] /\
  listings (fst run) = [] /\
  (forall b, snd run = Return b -> b = isdir os path) /\
  (isdir os path = true -> run = ([Isdir path], Return true)) /\
  (forall argv ev,
      (argv = [prog; path] /\ is_all_flag path = false) \/
      (argv = [prog; path; flag] /\ is_all_flag flag = true) ->
      In ev (fst (main os argv)) ->
      ev = Getcwd \/ (exists d, ev = Listdir d) ->
      isdir os path = true).
Proof.
  intros run. unfold run. rewrite directory_sanitizer_eq.
  split; [now destruct (isdir os path)|].
  split; [now destruct (isdir os path)|].
  split; [intros b; destruct (isdir os path); cbn; congruence|].
  split; [now intros ->|].
  intros argv ev Hargv Hin Hev.
  destruct (isdir os path) eqn:Hdir; [reflexivity|]. exfalso.
  assert (Ht : fst (main os argv) =
               [Isdir path; Print (diagnostic NotFound path)]).
  { destruct Hargv as [[-> Hflag] | [-> Hflag]].
    - rewrite main_directory by assumption.
      now rewrite directory_sanitizer_eq, Hdir.
    - rewrite main_directory_flag by assumption.
      now rewrite directory_sanitizer_eq, Hdir. }
  rewrite Ht in Hin.
  destruct Hin as [<-|[<-|[]]];
    destruct Hev as [Hev|[d Hev]]; discriminate.
Qed.

Lemma X4_directory_gate_witness :
  In (Listdir "root") (fst (main scenario_A ["tree.py"; "root"; "-a"])) /\
  isdir scenario_A "root" = true.
Proof.
  assert (H : In (Listdir "root")
                 (fst (main scenario_A ["tree.py"; "root"; "-a"])))
    by (vm_compute; tauto).
  split; [exact H|].
  destruct (X4_directory_gate scenario_A "tree.py" "root" "-a")
    as (_ & _ & _ & _ & Hgate).
  apply (Hgate ["tree.py"; "root"; "-a"] (Listdir "root")).
  - right. split; reflexivity.
  - exact H.
  - right. now exists "root".
Defined.

Section Reach.

Variable os : OS.

(** The last directory of a chain is a directory. *)
Lemma nested_isdir (include_dotfiles : bool) (chain : list string)
      (directory : string) :
  nested os include_dotfiles directory chain ->
  chain <> [] ->
  isdir os (path_of directory chain) = true.
Proof.
  revert directory.
  induction chain as [|name chain IH]; intros directory H Hne;
    [congruence|].
  cbn [nested] in H. destruct H as (_ & Hdir & H).
  destruct chain as [|next chain].
  - exact Hdir.
  - apply (IH (Py.join directory name) H). discriminate.
Qed.

Lemma isdirs_app (t1 t2 : list event) :
  isdirs (t1 ++ t2)%list = (isdirs t1 ++ isdirs t2)%list.
Proof.
  induction t1 as [|[p|p| |l] t1 IH]; simpl; rewrite ?IH; reflexivity.
Qed.

(** *** Accounting *)

Lemma accounted_loop (recurse : string -> string -> IO unit)
      (directory prefix : string) (count : Z) (items : list string)
      (index : Z) :
  (forall p q, accounted 1 (recurse p q)) ->
  accounted 0 (for_enumerate (print_entry os recurse directory prefix count)
                             index items).
Proof.
  intros Hrec. revert index.
  induction items as [|name rest IH]; intros index.
  - split; cbn; lia.
  - rewrite loop_cons.
    assert (Hsub : accounted 1 (descend os recurse directory prefix count
                                        index name)).
    { unfold descend. destruct (isdir os (Py.join directory name));
        [apply Hrec | split; cbn; lia]. }
    specialize (IH (index + 1)).
    destruct (descend os recurse directory prefix count index name)
      as [t r].
    destruct (for_enumerate (print_entry os recurse directory prefix count)
                            (index + 1) rest) as [t' r'].
    unfold accounted in *. cbn [fst snd] in *.
    destruct Hsub as [H1 H2], IH as [H3 H4].
    destruct r as [[]|e|]; cbn [bind fst snd];
      cbn [isdirs stdout listings List.length app];
      rewrite ?isdirs_app, ?stdout_app, ?listings_app, ?length_app;
      cbn [isdirs stdout listings List.length]; lia.
Qed.

Lemma accounted_print_directory (include_dotfiles : bool)
      (max_depth current_depth : Z) (directory prefix : string) :
  accounted 1 (print_directory os directory prefix include_dotfiles
                               max_depth current_depth).
Proof.
  revert directory prefix.
  induction current_depth as [current_depth IH] using (depth_ind max_depth).
  intros directory prefix.
  destruct (Z_le_gt_dec current_depth max_depth) as [Hle|Hgt];
    [|rewrite print_directory_above by lia; split; cbn; lia].
  destruct (listdir os directory) as [e|items] eqn:L.
  - rewrite (print_directory_failed os _ _ _ _ _ e) by assumption.
    split; cbn; lia.
  - rewrite (print_directory_listed os _ _ _ _ _ items) by assumption.
    destruct (accounted_loop
                (fun path prefix' =>
                   print_directory os path prefix' include_dotfiles
                                   max_depth (current_depth + 1))
                directory prefix
                (Z.of_nat (List.length (visible include_dotfiles items)))
                (visible include_dotfiles items) 0) as [H1 H2].
    { intros p q. now apply IH. }
    unfold print_entries. split; cbn [fst snd isdirs stdout listings
                                       List.length]; lia.
Qed.

(** In a run that ends normally, every directory within reach and within
    the depth bound is listed. *)
Lemma listing_complete (include_dotfiles : bool) (max_depth : Z)
      (chain : list string) (current_depth : Z)
      (directory prefix : string) :
  nested os include_dotfiles directory chain ->
  current_depth + Z.of_nat (List.length chain) <= max_depth ->
  snd (print_directory os directory prefix include_dotfiles
                       max_depth current_depth) = Return tt ->
  In (Listdir (path_of directory chain))
     (fst (print_directory os directory prefix include_dotfiles
                           max_depth current_depth)).
Proof.
  revert current_depth directory prefix.
  induction chain as [|step chain IH];
    intros current_depth directory prefix Hn Hd Hrun.
  - cbn [path_of fold_left List.length Z.of_nat] in *.
    destruct (listdir os directory) as [e|items] eqn:L.
    + rewrite (print_directory_failed os _ _ _ _ _ e) by (auto; lia).
      now left.
    + rewrite (print_directory_listed os _ _ _ _ _ items) by (auto; lia).
      now left.
  - cbn [nested path_of fold_left List.length] in *.
    destruct Hn as ((items0 & L0 & Hin) & Hdir & Hn).
    apply in_split in Hin. destruct Hin as (before0 & after0 & V0).
    destruct (print_directory_entry os include_dotfiles max_depth
                current_depth directory prefix items0 before0 step after0
                ltac:(lia) L0 V0 Hrun) as (Hsub & t1 & t2 & Ht).
    rewrite Hdir in Hsub, Ht.
    pose proof (IH (current_depth + 1) (Py.join directory step)
                   (prefix ++ indent (is_nil after0)) Hn ltac:(lia) Hsub)
      as Hin.
    rewrite Ht. apply in_or_app. right. right. right. right.
    apply in_or_app. now left.
Qed.

End Reach.

(** X5. Every line that [print_directory] writes begins with the prefix
    it was given, followed by at most [max_depth - current_depth]
    indentation blocks, then a connector.  Read without the prefix of
    the caller, its depth is the number of those blocks: no line is
    indented deeper than the depth bound. *)
Theorem X5_indentation_bound (os : OS) (directory prefix : string)
        (include_dotfiles : bool) (max_depth current_depth : Z)
        (l : string) :
  In l (stdout (fst (print_directory os directory prefix include_dotfiles
                                     max_depth current_depth))) ->
  exists flags is_last shown,
    l = prefix ++ indentation flags ++ connector is_last ++ shown /\
    current_depth + Z.of_nat (List.length flags) <= max_depth /\
    parse_line (indentation flags ++ connector is_last ++ shown) =
      Some (List.length flags, is_last, shown).
Proof.
  intros H. apply in_stdout, line_origin in H.
  destruct H as (chain & flags & items & before & name & after &
                 _ & Hlen & Hd & _ & _ & ->).
  exists flags, (is_nil after),
    (name ++ suffix (isdir os (Py.join (path_of directory chain) name))).
  split; [|split].
  - unfold entry_line. now rewrite append_assoc.
  - lia.
  - apply (parse_entry_line flags (is_nil after) name).
Qed.

Lemma X5_indentation_bound_witness :
  In ">>     └── c.txt"
     (stdout (fst (print_directory scenario_A "root" ">> " false 10 0))) /\
  exists flags is_last shown,
    ">>     └── c.txt" =
      ">> " ++ indentation flags ++ connector is_last ++ shown /\
    0 + Z.of_nat (List.length flags) <= 10 /\
    parse_line (indentation flags ++ connector is_last ++ shown) =
      Some (List.length flags, is_last, shown).
Proof.
  split; [vm_compute; tauto|].
  apply (X5_indentation_bound scenario_A "root" ">> " false 10 0).
  vm_compute. tauto.
Defined.

(** X6. [print_directory] lists only its own directory and directories
    below it: every other path it lists is reached through a chain of at
    most [max_depth - current_depth] listed names, each of them visible
    and a directory, and [os.path.isdir] holds of the path itself.  An
    entry that is not a directory is never listed, nor one below the
    depth bound. *)
Theorem X6_listed_directories (os : OS) (directory prefix : string)
        (include_dotfiles : bool) (max_depth current_depth : Z)
        (d : string) :
  In d (listings (fst (print_directory os directory prefix include_dotfiles
                                       max_depth current_depth))) ->
  exists chain,
    d = path_of directory chain /\
    nested os include_dotfiles directory chain /\
    current_depth + Z.of_nat (List.length chain) <= max_depth /\
    (chain <> [] -> isdir os d = true).
Proof.
  intros H. apply in_listings, listing_origin in H.
  destruct H as (chain & Hn & Hd & ->).
  exists chain. repeat split; auto.
  intros Hne. now apply (nested_isdir os include_dotfiles).
Qed.

Lemma X6_listed_directories_witness :
  In "root/sub"
     (listings (fst (print_directory scenario_A "root" "" false 10 0))) /\
  exists chain,
    "root/sub" = path_of "root" chain /\
    nested scenario_A false "root" chain /\
    0 + Z.of_nat (List.length chain) <= 10 /\
    (chain <> [] -> isdir scenario_A "root/sub" = true).
Proof.
  split; [vm_compute; tauto|].
  apply (X6_listed_directories scenario_A "root" "" false 10 0).
  vm_compute. tauto.
Defined.

(** X7. In a run of [print_directory] or of [print_tree] that ends
    normally, or that is cut short by a listing that fails,
    [os.path.isdir] has been called exactly twice for each line of the
    tree, and the directories listed are at most one more than those
    lines. *)
Theorem X7_calls_per_line (os : OS) (directory prefix : string)
        (include_dotfiles : bool) (max_depth : Z) :
  (forall current_depth,
      let run := print_directory os directory prefix include_dotfiles
                                 max_depth current_depth in
      snd run = Return tt \/
      (exists before d e,
          fst run = (before ++ [Listdir d])%list /\
          listdir os d = inl e /\ snd run = Raise e) ->
      List.length (isdirs (fst run)) =
        (2 * List.length (stdout (fst run)))%nat /\
      (List.length (listings (fst run)) <=
       1 + List.length (stdout (fst run)))%nat) /\
  (let run := print_tree os directory prefix include_dotfiles max_depth in
   snd run = Return tt \/
   (exists before d e,
       fst run = (before ++ [Listdir d])%list /\
       listdir os d = inl e /\ snd run = Raise e) ->
   List.length (isdirs (fst run)) =
     (2 * List.length (tl (stdout (fst run))))%nat /\
   (List.length (listings (fst run)) <=
    1 + List.length (tl (stdout (fst run))))%nat).
Proof.
  split.
  - intros current_depth run _. apply accounted_print_directory.
  - intros run _. unfold run. rewrite print_tree_eq.
    cbn [fst isdirs stdout listings tl]. apply accounted_print_directory.
Qed.

Lemma X7_calls_per_line_witness :
  fst (print_tree scenario_locked "root" "" false 10) =
    ([Getcwd; Print "project/"; Listdir "root";
      Isdir "root/a.txt"; Print "├── a.txt"; Isdir "root/a.txt";
      Isdir "root/locked"; Print "├── locked/"; Isdir "root/locked"]
       ++ [Listdir "root/locked"])%list /\
  List.length (isdirs (fst (print_tree scenario_locked "root" "" false 10))) =
    (2 * List.length
           (tl (stdout (fst (print_tree scenario_locked "root" ""
                                        false 10)))))%nat /\
  (List.length (listings (fst (print_tree scenario_locked "root" ""
                                          false 10))) <=
   1 + List.length
         (tl (stdout (fst (print_tree scenario_locked "root" ""
                                      false 10)))))%nat.
Proof.
  split; [reflexivity|].
  destruct (X7_calls_per_line scenario_locked "root" "" false 10) as [_ H].
  apply H. right.
  exists [Getcwd; Print "project/"; Listdir "root";
          Isdir "root/a.txt"; Print "├── a.txt"; Isdir "root/a.txt";
          Isdir "root/locked"; Print "├── locked/"; Isdir "root/locked"],
    "root/locked",
    (PermissionError "[Errno 13] Permission denied: 'root/locked'").
  repeat split.
Defined.

Section Depth.

Variable os : OS.

Lemma sublist_refl {A} (l : list A) : sublist l l.
Proof.
  induction l; constructor; assumption.
Qed.

Lemma sublist_nil_l {A} (l : list A) : sublist [] l.
Proof.
  induction l; constructor; assumption.
Qed.

Lemma sublist_app {A} (l1 l2 l3 l4 : list A) :
  sublist l1 l2 -> sublist l3 l4 -> sublist (l1 ++ l3) (l2 ++ l4).
Proof.
  induction 1 as [|x l1 l2 H IH|x l1 l2 H IH]; intros H34; cbn [app].
  - exact H34.
  - apply sublist_skip. now apply IH.
  - apply sublist_keep. now apply IH.
Qed.

Lemma sublist_stdout (t1 t2 : list event) :
  sublist t1 t2 -> sublist (stdout t1) (stdout t2).
Proof.
  induction 1 as [|x t1 t2 H IH|x t1 t2 H IH].
  - constructor.
  - destruct x; cbn [stdout]; try apply sublist_skip; assumption.
  - destruct x; cbn [stdout]; try apply sublist_keep; assumption.
Qed.

(** A loop whose recursive calls do less does less. *)
Lemma sublist_loop (shallow deep : string -> string -> IO unit)
      (directory prefix : string) (count : Z) (items : list string)
      (index : Z) :
  (forall p q,
      snd (deep p q) = Return tt ->
      snd (shallow p q) = Return tt /\
      sublist (fst (shallow p q)) (fst (deep p q))) ->
  snd (for_enumerate (print_entry os deep directory prefix count)
                     index items) = Return tt ->
  snd (for_enumerate (print_entry os shallow directory prefix count)
                     index items) = Return tt /\
  sublist
    (fst (for_enumerate (print_entry os shallow directory prefix count)
                        index items))
    (fst (for_enumerate (print_entry os deep directory prefix count)
                        index items)).
Proof.
  intros Hrec. revert index.
  induction items as [|name rest IH]; intros index H.
  - split; [reflexivity | constructor].
  - rewrite loop_cons in H. rewrite !loop_cons.
    apply bind_inv_Return in H. destruct H as ([] & H1 & H2 & H3).
    rewrite H3. cbn [fst snd] in H1 |- *.
    assert (Hsub :
              snd (descend os shallow directory prefix count index name) =
                Return tt /\
              sublist
                (fst (descend os shallow directory prefix count index name))
                (fst (descend os deep directory prefix count index name))).
    { unfold descend in H1 |- *.
      destruct (isdir os (Py.join directory name));
        [now apply Hrec | split; [reflexivity | constructor]]. }
    destruct Hsub as [Hs1 Hs2]. destruct (IH (index + 1) H2) as [Hl1 Hl2].
    rewrite Hs1, bind_Return. cbn [fst snd].
    split; [exact Hl1|].
    apply sublist_app; [|exact Hl2].
    repeat apply sublist_keep. exact Hs2.
Qed.

Lemma sublist_print_directory (include_dotfiles : bool)
      (shallow deep current_depth : Z) (directory prefix : string) :
  shallow <= deep ->
  snd (print_directory os directory prefix include_dotfiles
                       deep current_depth) = Return tt ->
  snd (print_directory os directory prefix include_dotfiles
                       shallow current_depth) = Return tt /\
  sublist
    (fst (print_directory os directory prefix include_dotfiles
                          shallow current_depth))
    (fst (print_directory os directory prefix include_dotfiles
                          deep current_depth)).
Proof.
  intros Hsd. revert directory prefix.
  induction current_depth as [current_depth IH] using (depth_ind shallow).
  intros directory prefix H.
  destruct (Z_le_gt_dec current_depth shallow) as [Hle|Hgt];
    [|rewrite (print_directory_above os _ _ _ shallow) by lia;
      split; [reflexivity | apply sublist_nil_l]].
  destruct (listdir os directory) as [e|items] eqn:L.
  { rewrite (print_directory_failed os _ _ _ _ _ e) in H by (auto; lia).
    discriminate. }
  rewrite (print_directory_listed os _ _ _ deep _ items) in H |- *
    by (auto; lia).
  rewrite (print_directory_listed os _ _ _ shallow _ items) by assumption.
  cbn [fst snd] in H |- *. unfold print_entries in *.
  destruct (sublist_loop
              (fun path prefix' =>
                 print_directory os path prefix' include_dotfiles shallow
                                 (current_depth + 1))
              (fun path prefix' =>
                 print_directory os path prefix' include_dotfiles deep
                                 (current_depth + 1))
              directory prefix
              (Z.of_nat (List.length (visible include_dotfiles items)))
              (visible include_dotfiles items) 0) as [H1 H2].
  - intros p q. now apply IH.
  - exact H.
  - split; [exact H1 | apply sublist_keep; exact H2].
Qed.

End Depth.

(** X8. A smaller maximum depth only removes lines.  When the run with
    the larger maximum depth ends normally, so does the run with the
    smaller one, and its output is the output of the deeper run with
    some lines left out, the others unchanged and in the same order. *)
Theorem X8_depth_monotone (os : OS) (directory prefix : string)
        (include_dotfiles : bool) (shallow deep : Z) :
  shallow <= deep ->
  snd (print_tree os directory prefix include_dotfiles deep) = Return tt ->
  snd (print_tree os directory prefix include_dotfiles shallow) = Return tt /\
  sublist
    (stdout (fst (print_tree os directory prefix include_dotfiles shallow)))
    (stdout (fst (print_tree os directory prefix include_dotfiles deep))).
Proof.
  intros Hsd. rewrite !print_tree_eq. cbn [fst snd]. intros H.
  destruct (sublist_print_directory os include_dotfiles shallow deep 0
                                    directory prefix Hsd H) as [H1 H2].
  split; [exact H1|].
  cbn [stdout]. apply sublist_keep. now apply sublist_stdout.
Qed.

Lemma X8_depth_monotone_witness :
  snd (print_tree scenario_A "root" "" false 0) = Return tt /\
  sublist
    ["project/"; "├── a.txt"; "├── b.txt"; "└── sub/"]
    ["project/"; "├── a.txt"; "├── b.txt"; "└── sub/"; "    └── c.txt"].
Proof.
  apply (X8_depth_monotone scenario_A "root" "" false 0 10).
  - lia.
  - reflexivity.
Defined.

(** X9. A directory without a visible entry (an empty one, or, when dot
    files are excluded, one that holds only dot files) is listed and
    nothing is printed for it: no line, no call to [os.path.isdir].  As
    a root it gives the header alone. *)
Theorem X9_nothing_visible (os : OS) (directory prefix : string)
        (include_dotfiles : bool) (max_depth current_depth : Z)
        (items : list string) :
  current_depth <= max_depth ->
  listdir os directory = inr items ->
  Forall (fun name =>
            include_dotfiles = false /\ Py.startswith name "." = true)
         items ->
  print_directory os directory prefix include_dotfiles
                  max_depth current_depth =
    ([Listdir directory], Return tt) /\
  (current_depth = 0 ->
   stdout (fst (print_tree os directory prefix include_dotfiles max_depth)) =
     [Py.basename (getcwd os) ++ "/"]).
Proof.
  intros Hle L Hdots.
  assert (V : visible include_dotfiles items = []).
  { clear L.
    induction Hdots as [|name items [Hinc Hdot] _ IH];
      [now destruct include_dotfiles|].
    subst include_dotfiles. unfold visible in *. cbn [negb filter] in *.
    now rewrite Hdot. }
  assert (H : print_directory os directory prefix include_dotfiles
                              max_depth current_depth =
              ([Listdir directory], Return tt)).
  { rewrite (print_directory_listed os _ _ _ _ _ items) by assumption.
    unfold print_entries. now rewrite V. }
  split; [exact H|].
  intros ->. now rewrite print_tree_eq, H.
Qed.

Lemma X9_nothing_visible_witness :
  print_directory scenario_dots "root" "" false 10 0 =
    ([Listdir "root"], Return tt) /\
  stdout (fst (print_tree scenario_dots "root" "" false 10)) = ["project/"] /\
  stdout (fst (print_tree scenario_dots "empty" "" true 10)) = ["project/"].
Proof.
  destruct (X9_nothing_visible scenario_dots "root" "" false 10 0
                               [".git"; ".env"]) as [H1 H2].
  - lia.
  - reflexivity.
  - repeat constructor.
  - destruct (X9_nothing_visible scenario_dots "empty" "" true 10 0 [])
      as [_ H3]; [lia | reflexivity | constructor |].
    split; [exact H1|]. split; [exact (H2 eq_refl) | exact (H3 eq_refl)].
Defined.

(** X10. The depth check bounds the recursion on every file system, one
    with a cycle included: [max_depth + 1 - current_depth] nested calls
    are always enough.  With that much fuel or more, the fuel never runs
    out and the result does not depend on it. *)
Theorem X10_bounded_recursion (os : OS) (fuel : nat)
        (directory prefix : string) (include_dotfiles : bool)
        (max_depth current_depth : Z) :
  (Z.to_nat (max_depth + 1 - current_depth) <= fuel)%nat ->
  print_directory_fuel os fuel directory prefix include_dotfiles
                       max_depth current_depth =
  print_directory os directory prefix include_dotfiles
                  max_depth current_depth /\
  snd (print_directory_fuel os fuel directory prefix include_dotfiles
                            max_depth current_depth) <> OutOfFuel.
Proof.
  intros H.
  assert (E : print_directory_fuel os fuel directory prefix include_dotfiles
                                   max_depth current_depth =
              print_directory os directory prefix include_dotfiles
                              max_depth current_depth).
  { unfold print_directory. apply print_directory_fuel_stable.
    - exact H.
    - apply le_n. }
  split; [exact E|]. rewrite E. apply print_directory_total.
Qed.

Lemma X10_bounded_recursion_witness :
  print_directory_fuel scenario_cycle 4 "loop" "" false 3 0 =
    print_directory scenario_cycle "loop" "" false 3 0 /\
  snd (print_directory_fuel scenario_cycle 4 "loop" "" false 3 0)
    <> OutOfFuel /\
  stdout (fst (print_directory scenario_cycle "loop" "" false 3 0)) =
    ["└── loop/"; "    └── loop/"; "        └── loop/";
     "            └── loop/"].
Proof.
  destruct (X10_bounded_recursion scenario_cycle 4 "loop" "" false 3 0)
    as [H1 H2]; [vm_compute; lia|].
  split; [exact H1|]. split; [exact H2 | reflexivity].
Defined.

(** X12. In a run of [print_tree] that ends normally, the directories
    listed are exactly the root and the directories reached from it
    through at most [max_depth] visible entries that are directories,
    each an entry of the one before; every one of them could be
    listed. *)
Theorem X12_listed_exactly (os : OS) (directory prefix : string)
        (include_dotfiles : bool) (max_depth : Z) :
  let run := print_tree os directory prefix include_dotfiles max_depth in
  snd run = Return tt ->
  (forall d,
      In d (listings (fst run)) <->
      exists chain,
        d = path_of directory chain /\
        nested os include_dotfiles directory chain /\
        Z.of_nat (List.length chain) <= max_depth) /\
  (forall d,
      In d (listings (fst run)) -> exists items, listdir os d = inr items).
Proof.
  intros run. unfold run. rewrite print_tree_eq. cbn [fst snd listings].
  intros Hrun. split.
  - intros d. split.
    + intros H. apply in_listings, listing_origin in H.
      destruct H as (chain & Hn & Hd & ->).
      exists chain. repeat split; auto.
    + intros (chain & -> & Hn & Hd).
      apply in_listings. apply listing_complete; auto.
  - intros d H. destruct (listdir os d) as [e|items] eqn:L; [|eauto].
    apply in_listings, in_split in H. destruct H as (before & after & Ht).
    destruct (fail_last_print_directory os include_dotfiles max_depth 0
                directory prefix before d after e Ht L) as [_ Habs].
    congruence.
Qed.

Lemma X12_listed_exactly_witness :
  snd (print_tree scenario_B "root" "" false 10) = Return tt /\
  listings (fst (print_tree scenario_B "root" "" false 10)) =
    ["root"; "root/sub"] /\
  (forall d,
      In d (listings (fst (print_tree scenario_B "root" "" false 10))) <->
      exists chain,
        d = path_of "root" chain /\
        nested scenario_B false "root" chain /\
        Z.of_nat (List.length chain) <= 10) /\
  (forall d,
      In d (listings (fst (print_tree scenario_B "root" "" false 10))) ->
      exists items, listdir scenario_B d = inr items).
Proof.
  split; [reflexivity|]. split; [reflexivity|].
  apply (X12_listed_exactly scenario_B "root" "" false 10). reflexivity.
Defined.

Section Compose.

Variable os : OS.

Lemma prepend_app (p : string) (t1 t2 : list event) :
  prepend p (t1 ++ t2)%list = (prepend p t1 ++ prepend p t2)%list.
Proof.
  induction t1 as [|[q|q| |l] t1 IH]; simpl; rewrite ?IH; reflexivity.
Qed.

Lemma stdout_prepend (p : string) (t : list event) :
  stdout (prepend p t) = map (append p) (stdout t).
Proof.
  induction t as [|[q|q| |l] t IH]; simpl; rewrite ?IH; reflexivity.
Qed.

(** The loop under a longer prefix, with recursive calls that only differ
    in the lines they print. *)
Lemma prepend_loop (outer inner : string -> string -> IO unit)
      (p directory prefix : string) (count : Z) (items : list string)
      (index : Z) :
  (forall path q,
      outer path (p ++ q) =
      (prepend p (fst (inner path q)), snd (inner path q))) ->
  for_enumerate (print_entry os outer directory (p ++ prefix) count)
                index items =
  (prepend p (fst (for_enumerate
                     (print_entry os inner directory prefix count)
                     index items)),
   snd (for_enumerate (print_entry os inner directory prefix count)
                      index items)).
Proof.
  intros Hrec. revert index.
  induction items as [|name rest IH]; intros index.
  - reflexivity.
  - rewrite !loop_cons, IH.
    assert (Hsub : descend os outer directory (p ++ prefix) count index name =
                   (prepend p (fst (descend os inner directory prefix count
                                            index name)),
                    snd (descend os inner directory prefix count
                                 index name))).
    { unfold descend. destruct (isdir os (Py.join directory name));
        [|reflexivity].
      now rewrite append_assoc, Hrec. }
    rewrite Hsub. cbn [fst snd].
    destruct (descend os inner directory prefix count index name)
      as [t [[]|e|]]; cbn [fst snd bind];
      unfold entry_line; rewrite append_assoc;
      try reflexivity.
    destruct (for_enumerate (print_entry os inner directory prefix count)
                            (index + 1) rest) as [t' r'].
    cbn [fst snd prepend]. now rewrite prepend_app.
Qed.

Lemma prepend_print_directory (include_dotfiles : bool) (max_depth k : Z)
      (p : string) (current_depth : Z) (directory prefix : string) :
  print_directory os directory (p ++ prefix) include_dotfiles
                  (max_depth + k) (current_depth + k) =
  (prepend p (fst (print_directory os directory prefix include_dotfiles
                                   max_depth current_depth)),
   snd (print_directory os directory prefix include_dotfiles
                        max_depth current_depth)).
Proof.
  revert directory prefix.
  induction current_depth as [current_depth IH] using (depth_ind max_depth).
  intros directory prefix.
  destruct (Z_le_gt_dec current_depth max_depth) as [Hle|Hgt];
    [|now rewrite !print_directory_above by lia].
  destruct (listdir os directory) as [e|items] eqn:L.
  - now rewrite !(print_directory_failed os _ _ _ _ _ e) by (auto; lia).
  - rewrite !(print_directory_listed os _ _ _ _ _ items) by (auto; lia).
    unfold print_entries. cbn [fst snd prepend].
    rewrite (prepend_loop
               (fun path prefix' =>
                  print_directory os path prefix' include_dotfiles
                                  (max_depth + k) (current_depth + k + 1))
               (fun path prefix' =>
                  print_directory os path prefix' include_dotfiles
                                  max_depth (current_depth + 1))).
    + reflexivity.
    + intros path q.
      replace (current_depth + k + 1) with (current_depth + 1 + k) by lia.
      now apply IH.
Qed.

(** *** Counting the lines *)

Lemma count_loop (include_dotfiles : bool)
      (recurse : string -> string -> IO unit)
      (directory prefix : string) (count : Z) (items : list string)
      (index : Z) :
  (forall p q,
      snd (recurse p q) = Return tt ->
      List.length (stdout (fst (recurse p q))) =
      list_sum (map (listed_entries os include_dotfiles)
                    (listings (fst (recurse p q))))) ->
  let run := for_enumerate (print_entry os recurse directory prefix count)
                           index items in
  snd run = Return tt ->
  List.length (stdout (fst run)) =
  (List.length items +
   list_sum (map (listed_entries os include_dotfiles)
                 (listings (fst run))))%nat.
Proof.
  intros Hrec. revert index.
  induction items as [|name rest IH]; intros index run H.
  - reflexivity.
  - unfold run in *. rewrite loop_cons in H |- *.
    apply bind_inv_Return in H. destruct H as ([] & H1 & H2 & H3).
    rewrite H3. cbn [fst snd] in H1 |- *.
    assert (Hsub :
              List.length
                (stdout (fst (descend os recurse directory prefix count
                                      index name))) =
              list_sum
                (map (listed_entries os include_dotfiles)
                     (listings (fst (descend os recurse directory prefix
                                             count index name))))).
    { unfold descend in H1 |- *.
      destruct (isdir os (Py.join directory name));
        [now apply Hrec | reflexivity]. }
    specialize (IH (index + 1) H2).
    rewrite stdout_app, listings_app, map_app, list_sum_app, length_app.
    cbn [stdout listings List.length]. rewrite IH, Hsub. lia.
Qed.

Lemma count_print_directory (include_dotfiles : bool)
      (max_depth current_depth : Z) (directory prefix : string) :
  let run := print_directory os directory prefix include_dotfiles
                             max_depth current_depth in
  snd run = Return tt ->
  List.length (stdout (fst run)) =
  list_sum (map (listed_entries os include_dotfiles) (listings (fst run))).
Proof.
  revert directory prefix.
  induction current_depth as [current_depth IH] using (depth_ind max_depth).
  intros directory prefix run H. unfold run in *.
  destruct (Z_le_gt_dec current_depth max_depth) as [Hle|Hgt];
    [|now rewrite print_directory_above by lia].
  destruct (listdir os directory) as [e|items] eqn:L.
  { rewrite (print_directory_failed os _ _ _ _ _ e) in H by assumption.
    discriminate. }
  rewrite (print_directory_listed os _ _ _ _ _ items) in H |- *
    by assumption.
  cbn [fst snd stdout listings map list_sum] in H |- *.
  unfold print_entries in *.
  rewrite (count_loop include_dotfiles) by (auto; intros; now apply IH).
  unfold listed_entries at 2. now rewrite L.
Qed.

(** *** A tree without dot files *)

Lemma visible_no_dot (include_dotfiles : bool) (items : list string) :
  Forall (fun name => Py.startswith name "." = false) items ->
  visible include_dotfiles items = items.
Proof.
  intros H. destruct include_dotfiles; [reflexivity|].
  unfold visible. cbn [negb].
  induction H as [|name items Hname _ IH]; [reflexivity|].
  cbn [filter]. now rewrite Hname, IH.
Qed.

Lemma no_dot_print_directory (max_depth current_depth : Z)
      (directory prefix : string) :
  (forall d items,
      listdir os d = inr items ->
      Forall (fun name => Py.startswith name "." = false) items) ->
  print_directory os directory prefix true max_depth current_depth =
  print_directory os directory prefix false max_depth current_depth.
Proof.
  intros Hos. revert directory prefix.
  induction current_depth as [current_depth IH] using (depth_ind max_depth).
  intros directory prefix.
  destruct (Z_le_gt_dec current_depth max_depth) as [Hle|Hgt];
    [|now rewrite !print_directory_above by lia].
  destruct (listdir os directory) as [e|items] eqn:L.
  - now rewrite !(print_directory_failed os _ _ _ _ _ e) by assumption.
  - rewrite !(print_directory_listed os _ _ _ _ _ items) by assumption.
    rewrite !visible_no_dot by (now apply (Hos directory)).
    unfold print_entries.
    erewrite for_enumerate_ext; [reflexivity|].
    intros i x. apply print_entry_ext. intros p q. now apply IH.
Qed.

End Compose.

(** X13. In a run that ends normally, every directory that is listed
    gets one line for each of its visible entries and nothing else is
    printed: the number of lines of the tree is the sum, over the
    directories listed, of the numbers of their visible entries. *)
Theorem X13_line_count (os : OS) (directory prefix : string)
        (include_dotfiles : bool) (max_depth : Z) :
  let run := print_tree os directory prefix include_dotfiles max_depth in
  snd run = Return tt ->
  List.length (tl (stdout (fst run))) =
  list_sum (map (listed_entries os include_dotfiles) (listings (fst run))).
Proof.
  intros run. unfold run. rewrite print_tree_eq.
  cbn [fst snd stdout listings tl]. apply count_print_directory.
Qed.

Lemma X13_line_count_witness :
  List.length (tl (stdout (fst (print_tree scenario_B "root" "" false 10)))) =
    list_sum (map (listed_entries scenario_B false) ["root"; "root/sub"]) /\
  list_sum (map (listed_entries scenario_B false) ["root"; "root/sub"]) =
    4%nat.
Proof.
  split; [|reflexivity].
  apply (X13_line_count scenario_B "root" "" false 10). reflexivity.
Defined.

(** X14. On a file system in which no listed name starts with a dot, the
    flag changes nothing: the run that includes dot files and the run
    that excludes them are the same, event for event. *)
Theorem X14_flag_without_dot_files (os : OS) (directory prefix : string)
        (max_depth : Z) :
  (forall d items,
      listdir os d = inr items ->
      Forall (fun name => Py.startswith name "." = false) items) ->
  print_tree os directory prefix true max_depth =
  print_tree os directory prefix false max_depth.
Proof.
  intros H. rewrite !print_tree_eq.
  now rewrite (no_dot_print_directory os max_depth 0 directory prefix H).
Qed.

Lemma X14_flag_without_dot_files_witness :
  print_tree scenario_A "root" "" true 10 =
  print_tree scenario_A "root" "" false 10.
Proof.
  apply (X14_flag_without_dot_files scenario_A "root" "" 10).
  intros d items. cbn [listdir scenario_A].
  destruct (String.eqb d "root").
  - intros H. inversion H. repeat constructor.
  - destruct (String.eqb d "root/sub"); [|discriminate].
    intros H. inversion H. repeat constructor.
Defined.

(** X15. The rendering of a directory does not depend on where it stands
    in a tree.  A longer prefix is only put before every line, and only
    the difference between the maximum depth and the current depth
    matters: the lines that a call prints below an entry are those of
    the same directory rendered on its own, from depth 0 with what is
    left of the depth, each after the prefix of the call. *)
Theorem X15_subtree (os : OS) (directory p prefix : string)
        (include_dotfiles : bool) (max_depth current_depth k : Z) :
  let inner := print_directory os directory prefix include_dotfiles
                               max_depth current_depth in
  let outer := print_directory os directory (p ++ prefix) include_dotfiles
                               (max_depth + k) (current_depth + k) in
  fst outer = prepend p (fst inner) /\
  snd outer = snd inner /\
  stdout (fst outer) = map (append p) (stdout (fst inner)) /\
  forall is_last name,
    isdir os (Py.join directory name) = true ->
    below os include_dotfiles max_depth current_depth prefix directory
          is_last name =
    map (append (prefix ++ indent is_last))
        (stdout (fst (print_directory os (Py.join directory name) ""
                                      include_dotfiles
                                      (max_depth - current_depth - 1) 0))).
Proof.
  intros inner outer. unfold inner, outer.
  rewrite prepend_print_directory. cbn [fst snd].
  repeat split; [apply stdout_prepend|].
  intros is_last name Hdir. unfold below. rewrite Hdir.
  pose proof (prepend_print_directory
                os include_dotfiles (max_depth - current_depth - 1)
                (current_depth + 1) (prefix ++ indent is_last) 0
                (Py.join directory name) "") as H.
  rewrite append_nil_r in H.
  replace (max_depth - current_depth - 1 + (current_depth + 1))
    with max_depth in H by lia.
  replace (0 + (current_depth + 1)) with (current_depth + 1) in H by lia.
  rewrite H. cbn [fst]. apply stdout_prepend.
Qed.

Lemma X15_subtree_witness :
  isdir scenario_A (Py.join "root" "sub") = true /\
  below scenario_A false 10 0 "" "root" true "sub" =
    map (append ("" ++ indent true))
        (stdout (fst (print_directory scenario_A (Py.join "root" "sub") ""
                                      false (10 - 0 - 1) 0))) /\
  stdout (fst (print_directory scenario_A "root/sub" "" false 9 0)) =
    ["└── c.txt"].
Proof.
  split; [reflexivity|]. split; [|reflexivity].
  destruct (X15_subtree scenario_A "root" "" "" false 10 0 0)
    as (_ & _ & _ & H).
  apply H. reflexivity.
Defined.
